(** * ATS Resume Ranker: the session state machine of [index.tsx]

    A shallow embedding of the [App] component of [src/index.tsx]: its
    [useState] cells, the two event handlers [handleFileChange] and
    [handleRankResume], the trigger button's [disabled] condition and
    [getScoreColor], together with the JavaScript string operations they
    call ([trim], [startsWith], [substring], [join]).

    Conventions.
    - A JavaScript string is the list of its UTF-16 code units, so that
      [length] counts what [String.prototype.length] counts.
    - A JavaScript number is an IEEE 754 binary64 value, with the
      comparison and the rounded product of doubles.
    - A handler is a computation over the component state that finishes
      normally, by [return], or by a thrown exception; [try]/[catch]/[finally]
      are combinators on such computations.
    - An [async] handler is cut at its first [await]: the part before it runs
      when the event fires, the part after it runs when the awaited promise
      settles, and the settlement (the PDF library's or the AI service's
      answer) is an input of that second part.
    - The state setters called in one synchronous run are applied together
      (React batches them), so the states between runs are the observable
      ones. *)

From Stdlib Require Import List NArith ZArith Bool String Ascii Lia.
From Stdlib Require Import SpecFloat.
Import ListNotations.

Open Scope Z_scope.
Set Warnings "-register-all".

(* ================================================================== *)
(** ** JavaScript strings *)

Module JS.

(** A string value: its UTF-16 code units. *)
Definition jsstring := list N.

(** The string written by an ASCII literal. *)
Fixpoint lit (s : string) : jsstring :=
  match s with
  | EmptyString => []
  | String c r => N_of_ascii c :: lit r
  end.

(** [s.length] *)
Definition length (s : jsstring) : Z := Z.of_nat (List.length s).

(** [a === b] on strings. *)
Fixpoint eqb (a b : jsstring) : bool :=
  match a, b with
  | [], [] => true
  | x :: a', y :: b' => N.eqb x y && eqb a' b'
  | _, _ => false
  end.

(** [!s]: the empty string is the only falsy string. *)
Definition falsy (s : jsstring) : bool :=
  match s with [] => true | _ :: _ => false end.

(** ECMAScript WhiteSpace and LineTerminator code points, the ones
    [trim] removes. *)
Definition isWhiteSpace (c : N) : bool :=
  ((9 <=? c) && (c <=? 13) || (c =? 32) || (c =? 160) || (c =? 5760)
   || (8192 <=? c) && (c <=? 8202) || (c =? 8232) || (c =? 8233)
   || (c =? 8239) || (c =? 8287) || (c =? 12288) || (c =? 65279))%N.

Fixpoint trimStart (s : jsstring) : jsstring :=
  match s with
  | [] => []
  | c :: r => if isWhiteSpace c then trimStart r else s
  end.

Definition trimEnd (s : jsstring) : jsstring := rev (trimStart (rev s)).

(** [s.trim()] *)
Definition trim (s : jsstring) : jsstring := trimEnd (trimStart s).

(** [s.startsWith(p)] *)
Fixpoint startsWith (s p : jsstring) {struct p} : bool :=
  match p, s with
  | [], _ => true
  | x :: p', y :: s' => N.eqb x y && startsWith s' p'
  | _ :: _, [] => false
  end.

(** [s.substring(start, end)]: both indices are clamped to [0, s.length]
    and swapped when [start > end]. *)
Definition clamp (len i : Z) : Z := Z.min (Z.max i 0) len.

Definition substring (s : jsstring) (start end_ : Z) : jsstring :=
  let a := clamp (length s) start in
  let b := clamp (length s) end_ in
  let from := Z.min a b in
  let to := Z.max a b in
  firstn (Z.to_nat (to - from)) (skipn (Z.to_nat from) s).

(** [parts.join(sep)] *)
Fixpoint join (sep : jsstring) (parts : list jsstring) : jsstring :=
  match parts with
  | [] => []
  | [p] => p
  | p :: rest => p ++ sep ++ join sep rest
  end.

End JS.

Import JS.

Definition LF : N := 10.
Definition SP : N := 32.
Definition DQUOTE : N := 34.

(* ================================================================== *)
(** ** Values of the component *)

(** What [JSON.parse] returns.  A number is kept as the text of its
    literal. *)
Inductive json : Type :=
| JNull
| JBool (b : bool)
| JNumber (lexeme : jsstring)
| JString (s : jsstring)
| JArray (items : list json)
| JObject (members : list (jsstring * json)).

(** The [File] picked in the file input, as far as the handler reads it. *)
Record File : Type := mkFile {
  file_name : jsstring;
  file_type : jsstring
}.

(** The [useState] cells of [App]. *)
Record State : Type := mkState {
  selectedJob : jsstring;
  customJobTitle : jsstring;
  resumeText : jsstring;
  resumeFileName : jsstring;
  rankingResult : option json;
  isLoading : bool;
  isParsing : bool;
  error : option jsstring
}.

Definition initialState : State :=
  {| selectedJob := []; customJobTitle := []; resumeText := [];
     resumeFileName := []; rankingResult := None;
     isLoading := false; isParsing := false; error := None |}.

Definition jobTitles : list jsstring :=
  [ lit "Software Engineer"; lit "Frontend Developer";
    lit "Backend Developer"; lit "Full Stack Developer";
    lit "Data Scientist"; lit "Product Manager"; lit "UX/UI Designer";
    lit "DevOps Engineer"; lit "Cybersecurity Analyst"; lit "Other" ].

(** The user-facing messages. *)
Definition msgUnsupportedFormat : jsstring := lit "Please upload a PDF file.".
Definition msgNoReadableText : jsstring :=
  lit "This appears to be an image-based PDF with no readable text. Please upload a text-based PDF.".
Definition msgPasswordProtected : jsstring :=
  lit "This PDF is password-protected. Please upload an unprotected version.".
Definition msgCorruptOrUnreadable : jsstring :=
  lit "Could not read resume from PDF. The file might be corrupt or unreadable.".
Definition msgValidation : jsstring :=
  lit "Please select/specify a job title and upload a resume.".
Definition msgParseFailure : jsstring :=
  lit "Failed to analyze resume. The model returned an unexpected format.".
Definition msgServiceFailure : jsstring :=
  lit "Failed to get ranking. Please check your inputs and try again.".

(* ================================================================== *)
(** ** Handlers as computations over the state *)

(** A thrown value, as far as a [catch] inspects it: its [name]. *)
Record exn : Type := mkExn { exn_name : jsstring }.

(** How a run of statements ends. *)
Inductive completion (A : Type) : Type :=
| Normal (a : A)
| Returned
| Thrown (e : exn).

Arguments Normal {A} a.
Arguments Returned {A}.
Arguments Thrown {A} e.

Definition Handler (A : Type) : Type := State -> State * completion A.

Definition ret {A} (a : A) : Handler A := fun st => (st, Normal a).

Definition bind {A B} (m : Handler A) (k : A -> Handler B) : Handler B :=
  fun st =>
    match m st with
    | (st', Normal a) => k a st'
    | (st', Returned) => (st', Returned)
    | (st', Thrown e) => (st', Thrown e)
    end.

(** [return;] *)
Definition return_ {A} : Handler A := fun st => (st, Returned).

(** [throw e] *)
Definition throw {A} (e : exn) : Handler A := fun st => (st, Thrown e).

(** [try { body } catch (e) { handler e }] *)
Definition try_catch {A} (body : Handler A) (handler : exn -> Handler A)
  : Handler A :=
  fun st =>
    match body st with
    | (st', Thrown e) => handler e st'
    | r => r
    end.

(** [try { body } finally { fin }]: [fin] runs however [body] ends, and
    the completion of [body] stands unless [fin] itself ends abruptly. *)
Definition try_finally {A} (body : Handler A) (fin : Handler unit)
  : Handler A :=
  fun st =>
    match body st with
    | (st', c) =>
        match fin st' with
        | (st'', Normal _) => (st'', c)
        | (st'', Returned) => (st'', Returned)
        | (st'', Thrown e) => (st'', Thrown e)
        end
    end.

(** Read the current state. *)
Definition get : Handler State := fun st => (st, Normal st).

Notation "x <- m ;; k" := (bind m (fun x => k))
  (at level 61, m at next level, right associativity).
Notation "m ;; k" := (bind m (fun _ => k))
  (at level 61, right associativity).

(** The state setters. *)
Definition setSelectedJob (v : jsstring) : Handler unit := fun st =>
  ({| selectedJob := v; customJobTitle := customJobTitle st;
      resumeText := resumeText st; resumeFileName := resumeFileName st;
      rankingResult := rankingResult st; isLoading := isLoading st;
      isParsing := isParsing st; error := error st |}, Normal tt).

Definition setCustomJobTitle (v : jsstring) : Handler unit := fun st =>
  ({| selectedJob := selectedJob st; customJobTitle := v;
      resumeText := resumeText st; resumeFileName := resumeFileName st;
      rankingResult := rankingResult st; isLoading := isLoading st;
      isParsing := isParsing st; error := error st |}, Normal tt).

Definition setResumeText (v : jsstring) : Handler unit := fun st =>
  ({| selectedJob := selectedJob st; customJobTitle := customJobTitle st;
      resumeText := v; resumeFileName := resumeFileName st;
      rankingResult := rankingResult st; isLoading := isLoading st;
      isParsing := isParsing st; error := error st |}, Normal tt).

Definition setResumeFileName (v : jsstring) : Handler unit := fun st =>
  ({| selectedJob := selectedJob st; customJobTitle := customJobTitle st;
      resumeText := resumeText st; resumeFileName := v;
      rankingResult := rankingResult st; isLoading := isLoading st;
      isParsing := isParsing st; error := error st |}, Normal tt).

Definition setRankingResult (v : option json) : Handler unit := fun st =>
  ({| selectedJob := selectedJob st; customJobTitle := customJobTitle st;
      resumeText := resumeText st; resumeFileName := resumeFileName st;
      rankingResult := v; isLoading := isLoading st;
      isParsing := isParsing st; error := error st |}, Normal tt).

Definition setIsLoading (v : bool) : Handler unit := fun st =>
  ({| selectedJob := selectedJob st; customJobTitle := customJobTitle st;
      resumeText := resumeText st; resumeFileName := resumeFileName st;
      rankingResult := rankingResult st; isLoading := v;
      isParsing := isParsing st; error := error st |}, Normal tt).

Definition setIsParsing (v : bool) : Handler unit := fun st =>
  ({| selectedJob := selectedJob st; customJobTitle := customJobTitle st;
      resumeText := resumeText st; resumeFileName := resumeFileName st;
      rankingResult := rankingResult st; isLoading := isLoading st;
      isParsing := v; error := error st |}, Normal tt).

Definition setError (v : option jsstring) : Handler unit := fun st =>
  ({| selectedJob := selectedJob st; customJobTitle := customJobTitle st;
      resumeText := resumeText st; resumeFileName := resumeFileName st;
      rankingResult := rankingResult st; isLoading := isLoading st;
      isParsing := isParsing st; error := v |}, Normal tt).

(* ================================================================== *)
(** ** [handleFileChange] *)

(** The text of one page: the [str] of each item of its text content. *)
Definition Page : Type := list jsstring.

(** How the awaited PDF reads settle: every page was read, or one of
    [arrayBuffer], [getDocument], [getPage], [getTextContent] rejected. *)
Inductive PdfOutcome : Type :=
| PdfRead (pages : list Page)
| PdfRejected (e : exn).

Definition awaitPdf (o : PdfOutcome) : Handler (list Page) :=
  match o with
  | PdfRead pages => ret pages
  | PdfRejected e => throw e
  end.

(** The loop over the pages:
    [fullText += items.map(s => s.str).join(' ') + '\n']. *)
Definition extractText (pages : list Page) : jsstring :=
  fold_left (fun fullText items => fullText ++ join [SP] items ++ [LF])
            pages [].

(** From the event to the first [await].  [Normal f] means that the
    handler is suspended on the reads of [f]; [Returned] that it returned
    without reading anything. *)
Definition handleFileChange (file : option File) : Handler File :=
  match file with
  | None => return_
  | Some f =>
      if negb (eqb (file_type f) (lit "application/pdf")) then
        setError (Some msgUnsupportedFormat) ;;
        setResumeFileName [] ;;
        setResumeText [] ;;
        return_
      else
        setIsParsing true ;;
        setError None ;;
        setRankingResult None ;;
        setResumeFileName (file_name f) ;;
        setResumeText [] ;;
        ret f
  end.

(** From the settlement of the reads to the end of the handler. *)
Definition handleFileChange_resume (o : PdfOutcome) : Handler unit :=
  try_finally
    (try_catch
       (pages <- awaitPdf o ;;
        let fullText := extractText pages in
        if length (trim fullText) <? 50 then
          setError (Some msgNoReadableText) ;;
          setResumeFileName [] ;;
          setResumeText [] ;;
          setIsParsing false ;;
          return_
        else
          setResumeText fullText)
       (fun err =>
          (if eqb (exn_name err) (lit "PasswordException") then
             setError (Some msgPasswordProtected)
           else
             setError (Some msgCorruptOrUnreadable)) ;;
          setResumeFileName [] ;;
          setResumeText []))
    (setIsParsing false).

(* ================================================================== *)
(** ** [handleRankResume] *)

(** What the prompt interpolates: the job title and the resume text. *)
Record Request : Type := mkRequest {
  req_jobToRank : jsstring;
  req_resumeText : jsstring
}.

(** [selectedJob === 'Other' ? customJobTitle : selectedJob] *)
Definition jobToRank (st : State) : jsstring :=
  if eqb (selectedJob st) (lit "Other") then customJobTitle st
  else selectedJob st.

(** From the click to the [await] of [generateContent].  [Normal req]
    means that the request was issued and the handler is suspended on it. *)
Definition handleRankResume : Handler Request :=
  st <- get ;;
  if falsy (jobToRank st) || falsy (resumeText st) then
    setError (Some msgValidation) ;;
    return_
  else
    setIsLoading true ;;
    setError None ;;
    setRankingResult None ;;
    ret {| req_jobToRank := jobToRank st; req_resumeText := resumeText st |}.

(** How the request settles: a response whose [text] is a string or
    [undefined], or a rejection. *)
Inductive ServiceOutcome : Type :=
| Responded (text : option jsstring)
| ServiceRejected (e : exn).

Definition awaitService (o : ServiceOutcome) : Handler (option jsstring) :=
  match o with
  | Responded text => ret text
  | ServiceRejected e => throw e
  end.

(** [response.text.trim()]: a [TypeError] when [text] is [undefined]. *)
Definition trimResponseText (text : option jsstring) : Handler jsstring :=
  match text with
  | Some t => ret (trim t)
  | None => throw {| exn_name := lit "TypeError" |}
  end.

Definition fenceJson : jsstring := lit "```json".
Definition fence : jsstring := lit "```".

(** The two [startsWith] branches applied to the trimmed text. *)
Definition stripFence (resultText : jsstring) : jsstring :=
  if startsWith resultText fenceJson then
    trim (substring resultText 7 (length resultText - 3))
  else if startsWith resultText fence then
    trim (substring resultText 3 (length resultText - 3))
  else resultText.

(** The button's [disabled] attribute. *)
Definition disabled (st : State) : bool :=
  isLoading st || isParsing st || falsy (resumeText st)
  || falsy (selectedJob st)
  || (eqb (selectedJob st) (lit "Other") && falsy (customJobTitle st)).

(* ------------------------------------------------------------------ *)
(** *** JavaScript numbers

    A number is an IEEE 754 binary64 value: the standard library's
    specification of floating-point arithmetic at precision 53 and
    exponent bound 1024, with its comparison and its correctly rounded
    product. *)

Module Num.

Definition number : Type := spec_float.

Definition prec : Z := 53.
Definition emax : Z := 1024.

(** The values that are doubles: a finite one has its mantissa and
    exponent in canonical form. *)
Definition valid (x : number) : bool := valid_binary prec emax x.

(** The value of an integer literal such as [85]. *)
Definition ofZ (z : Z) : number := binary_normalize prec emax z 0 false.

(** [a >= b]: false as soon as one side is [NaN]. *)
Definition ge (a b : number) : bool := SFleb b a.

(** [a <= b] *)
Definition le (a b : number) : bool := SFleb a b.

(** [a * b] *)
Definition mul (a b : number) : number := SFmul prec emax a b.

(** [a / b] *)
Definition div (a b : number) : number := SFdiv prec emax a b.

End Num.

(** [getScoreColor] *)
Definition getScoreColor (score : Num.number) : jsstring :=
  if Num.ge score (Num.ofZ 85) then lit "high-score"
  else if Num.ge score (Num.ofZ 60) then lit "medium-score"
  else lit "low-score".

(** One entry of [breakdown], and the class of its card:
    [getScoreColor(item.score * 10)]. *)
Record RankingBreakdown : Type := mkBreakdown {
  criterion : jsstring;
  score : Num.number;
  feedback : jsstring
}.

Definition breakdownScoreColor (item : RankingBreakdown) : jsstring :=
  getScoreColor (Num.mul (score item) (Num.ofZ 10)).

Section Session.

(** [JSON.parse]: [None] stands for the [SyntaxError] it throws. *)
Variable JSON_parse : jsstring -> option json.

Definition jsonParse (s : jsstring) : Handler json :=
  match JSON_parse s with
  | Some v => ret v
  | None => throw {| exn_name := lit "SyntaxError" |}
  end.

(** The inner [try]/[catch] around [JSON.parse]. *)
Definition parseStage (resultText : jsstring) : Handler unit :=
  try_catch
    (resultJson <- jsonParse resultText ;;
     setRankingResult (Some resultJson))
    (fun _ => setError (Some msgParseFailure)).

(** From the settlement of the request to the end of the handler. *)
Definition handleRankResume_resume (o : ServiceOutcome) : Handler unit :=
  try_finally
    (try_catch
       (text <- awaitService o ;;
        resultText <- trimResponseText text ;;
        parseStage (stripFence resultText))
       (fun _ => setError (Some msgServiceFailure)))
    (setIsLoading false).

(* ------------------------------------------------------------------ *)
(** *** The session: the component state and the suspended handlers *)

Record Sys : Type := mkSys {
  ui : State;
  parsesInFlight : nat;
  analysesInFlight : nat
}.

Definition initialSys : Sys :=
  {| ui := initialState; parsesInFlight := 0; analysesInFlight := 0 |}.

Inductive Event : Type :=
| SelectJob (title : jsstring)
| TypeCustomTitle (text : jsstring)
| SelectFile (file : option File)
| PdfSettled (o : PdfOutcome)
| ClickRank
| ServiceSettled (o : ServiceOutcome).

(** One event.  [None] when the event cannot happen: a title that is not
    an option of the select, a settlement with nothing in flight. *)
Definition step (s : Sys) (ev : Event) : option Sys :=
  match ev with
  | SelectJob title =>
      if existsb (eqb title) jobTitles then
        Some {| ui := fst (setSelectedJob title (ui s));
                parsesInFlight := parsesInFlight s;
                analysesInFlight := analysesInFlight s |}
      else None
  | TypeCustomTitle text =>
      if eqb (selectedJob (ui s)) (lit "Other") then
        Some {| ui := fst (setCustomJobTitle text (ui s));
                parsesInFlight := parsesInFlight s;
                analysesInFlight := analysesInFlight s |}
      else None
  | SelectFile file =>
      match handleFileChange file (ui s) with
      | (st', Normal _) =>
          Some {| ui := st'; parsesInFlight := S (parsesInFlight s);
                  analysesInFlight := analysesInFlight s |}
      | (st', _) =>
          Some {| ui := st'; parsesInFlight := parsesInFlight s;
                  analysesInFlight := analysesInFlight s |}
      end
  | PdfSettled o =>
      match parsesInFlight s with
      | O => None
      | S n =>
          Some {| ui := fst (handleFileChange_resume o (ui s));
                  parsesInFlight := n;
                  analysesInFlight := analysesInFlight s |}
      end
  | ClickRank =>
      if disabled (ui s) then Some s
      else
        match handleRankResume (ui s) with
        | (st', Normal _) =>
            Some {| ui := st'; parsesInFlight := parsesInFlight s;
                    analysesInFlight := S (analysesInFlight s) |}
        | (st', _) =>
            Some {| ui := st'; parsesInFlight := parsesInFlight s;
                    analysesInFlight := analysesInFlight s |}
        end
  | ServiceSettled o =>
      match analysesInFlight s with
      | O => None
      | S n =>
          Some {| ui := fst (handleRankResume_resume o (ui s));
                  parsesInFlight := parsesInFlight s;
                  analysesInFlight := n |}
      end
  end.

(** A run of events, each of them allowed by [allow] where it happens. *)
Fixpoint run (allow : Sys -> Event -> bool) (evs : list Event) (s : Sys)
  : option Sys :=
  match evs with
  | [] => Some s
  | ev :: rest =>
      if allow s ev then
        match step s ev with
        | Some s' => run allow rest s'
        | None => None
        end
      else None
  end.

(** Every interleaving the page permits. *)
Definition anyEvent (s : Sys) (ev : Event) : bool := true.

(** The runs in which a file is chosen only while no parse is in flight,
    and every chosen file has a name. *)
Definition oneParseAtATime (s : Sys) (ev : Event) : bool :=
  match ev with
  | SelectFile (Some f) =>
      Nat.eqb (parsesInFlight s) 0 && negb (falsy (file_name f))
  | _ => true
  end.

End Session.

(* ================================================================== *)
(** ** A reader of JSON texts

    [JSON.parse] is a parameter of the session above.  Where an example
    needs an actual parser, this reader of the JSON grammar (ECMA-404)
    takes its place: white space, the three literals, numbers, strings
    with their escapes, arrays and objects. *)

Module JSONText.

Definition isJsonWs (c : N) : bool :=
  ((c =? 32) || (c =? 9) || (c =? 10) || (c =? 13))%N.

Fixpoint skipWs (s : jsstring) : jsstring :=
  match s with
  | [] => []
  | c :: r => if isJsonWs c then skipWs r else s
  end.

Definition isDigit (c : N) : bool := ((48 <=? c) && (c <=? 57))%N.

Fixpoint spanDigits (s : jsstring) : jsstring * jsstring :=
  match s with
  | [] => ([], [])
  | c :: r =>
      if isDigit c then let (ds, r') := spanDigits r in (c :: ds, r')
      else ([], s)
  end.

Definition readInt (s : jsstring) : option (jsstring * jsstring) :=
  match s with
  | [] => None
  | c :: r =>
      if (c =? 48)%N then Some ([c], r)
      else if isDigit c then
        let (ds, r') := spanDigits r in Some (c :: ds, r')
      else None
  end.

Definition readFrac (s : jsstring) : option (jsstring * jsstring) :=
  match s with
  | c :: r =>
      if (c =? 46)%N then
        match spanDigits r with
        | ([], _) => None
        | (ds, r') => Some (c :: ds, r')
        end
      else Some ([], s)
  | [] => Some ([], s)
  end.

Definition readSign (s : jsstring) : jsstring * jsstring :=
  match s with
  | c :: r => if ((c =? 43) || (c =? 45))%N then ([c], r) else ([], s)
  | [] => ([], s)
  end.

Definition readExp (s : jsstring) : option (jsstring * jsstring) :=
  match s with
  | c :: r =>
      if ((c =? 101) || (c =? 69))%N then
        let (sg, r1) := readSign r in
        match spanDigits r1 with
        | ([], _) => None
        | (ds, r2) => Some (c :: sg ++ ds, r2)
        end
      else Some ([], s)
  | [] => Some ([], s)
  end.

Definition readNumber (s : jsstring) : option (jsstring * jsstring) :=
  let (minus, r0) :=
    match s with
    | c :: r => if (c =? 45)%N then ([c], r) else ([], s)
    | [] => ([], s)
    end in
  match readInt r0 with
  | None => None
  | Some (i, r1) =>
      match readFrac r1 with
      | None => None
      | Some (f, r2) =>
          match readExp r2 with
          | None => None
          | Some (e, r3) => Some (minus ++ i ++ f ++ e, r3)
          end
      end
  end.

Definition hexVal (c : N) : option N :=
  (if isDigit c then Some (c - 48)
   else if (97 <=? c) && (c <=? 102) then Some (c - 87)
   else if (65 <=? c) && (c <=? 70) then Some (c - 55)
   else None)%N.

Definition escaped (c : N) : option N :=
  (if c =? 34 then Some 34 else if c =? 92 then Some 92
   else if c =? 47 then Some 47 else if c =? 98 then Some 8
   else if c =? 102 then Some 12 else if c =? 110 then Some 10
   else if c =? 114 then Some 13 else if c =? 116 then Some 9
   else None)%N.

(** The characters of a string up to its closing quote. *)
Fixpoint readChars (s : jsstring) : option (jsstring * jsstring) :=
  match s with
  | [] => None
  | c :: r =>
      if (c =? 34)%N then Some ([], r)
      else if (c =? 92)%N then
        match r with
        | [] => None
        | e :: r1 =>
            if (e =? 117)%N then
              match r1 with
              | h1 :: h2 :: h3 :: h4 :: r2 =>
                  match hexVal h1, hexVal h2, hexVal h3, hexVal h4 with
                  | Some a, Some b, Some c', Some d =>
                      match readChars r2 with
                      | Some (cs, r3) =>
                          Some ((((a * 16 + b) * 16 + c') * 16 + d)%N :: cs,
                                r3)
                      | None => None
                      end
                  | _, _, _, _ => None
                  end
              | _ => None
              end
            else
              match escaped e with
              | Some x =>
                  match readChars r1 with
                  | Some (cs, r3) => Some (x :: cs, r3)
                  | None => None
                  end
              | None => None
              end
        end
      else if (c <? 32)%N then None
      else
        match readChars r with
        | Some (cs, r3) => Some (c :: cs, r3)
        | None => None
        end
  end.

Fixpoint readValue (fuel : nat) (s : jsstring) : option (json * jsstring) :=
  match fuel with
  | O => None
  | S fuel' =>
      match skipWs s with
      | [] => None
      | c :: r =>
          if (c =? 123)%N then
            match skipWs r with
            | c' :: r' =>
                if (c' =? 125)%N then Some (JObject [], r')
                else
                  match readMembers fuel' r with
                  | Some (ms, r'') => Some (JObject ms, r'')
                  | None => None
                  end
            | [] => None
            end
          else if (c =? 91)%N then
            match skipWs r with
            | c' :: r' =>
                if (c' =? 93)%N then Some (JArray [], r')
                else
                  match readElements fuel' r with
                  | Some (vs, r'') => Some (JArray vs, r'')
                  | None => None
                  end
            | [] => None
            end
          else if (c =? 34)%N then
            match readChars r with
            | Some (cs, r') => Some (JString cs, r')
            | None => None
            end
          else if startsWith (c :: r) (lit "true") then
            Some (JBool true, skipn 4 (c :: r))
          else if startsWith (c :: r) (lit "false") then
            Some (JBool false, skipn 5 (c :: r))
          else if startsWith (c :: r) (lit "null") then
            Some (JNull, skipn 4 (c :: r))
          else
            match readNumber (c :: r) with
            | Some (n, r') => Some (JNumber n, r')
            | None => None
            end
      end
  end
with readElements (fuel : nat) (s : jsstring)
  : option (list json * jsstring) :=
  match fuel with
  | O => None
  | S fuel' =>
      match readValue fuel' s with
      | None => None
      | Some (v, r) =>
          match skipWs r with
          | c :: r' =>
              if (c =? 44)%N then
                match readElements fuel' r' with
                | Some (vs, r'') => Some (v :: vs, r'')
                | None => None
                end
              else if (c =? 93)%N then Some ([v], r')
              else None
          | [] => None
          end
      end
  end
with readMembers (fuel : nat) (s : jsstring)
  : option (list (jsstring * json) * jsstring) :=
  match fuel with
  | O => None
  | S fuel' =>
      match skipWs s with
      | q :: r0 =>
          if (q =? 34)%N then
            match readChars r0 with
            | None => None
            | Some (k, r1) =>
                match skipWs r1 with
                | c :: r2 =>
                    if (c =? 58)%N then
                      match readValue fuel' r2 with
                      | None => None
                      | Some (v, r3) =>
                          match skipWs r3 with
                          | d :: r4 =>
                              if (d =? 44)%N then
                                match readMembers fuel' r4 with
                                | Some (ms, r5) => Some ((k, v) :: ms, r5)
                                | None => None
                                end
                              else if (d =? 125)%N then Some ([(k, v)], r4)
                              else None
                          | [] => None
                          end
                      end
                    else None
                | [] => None
                end
            end
          else None
      | [] => None
      end
  end.

(** A whole text: one value, white space around it, nothing else. *)
Definition parse (s : jsstring) : option json :=
  match readValue (2 * List.length s + 2) s with
  | Some (v, r) => if falsy (skipWs r) then Some v else None
  | None => None
  end.

End JSONText.

(* ================================================================== *)
(** ** Properties named by the specification, and sample data *)

(** The two fields of the resume agree: both empty or both non-empty. *)
Definition validPair (st : State) : bool :=
  Bool.eqb (falsy (resumeFileName st)) (falsy (resumeText st)).

(** What the specification says of fence stripping: the text without its
    opening marker of [marker] code units and without its final three
    code units, trimmed. *)
Definition withoutFence (marker : nat) (t : jsstring) : jsstring :=
  trim (skipn marker (firstn (List.length t - 3) t)).

(** A response wrapped in a fence, tagged or not. *)
Definition fencedJson (b : jsstring) : jsstring :=
  fenceJson ++ [LF] ++ b ++ [LF] ++ fence.

Definition fencedPlain (b : jsstring) : jsstring :=
  fence ++ [LF] ++ b ++ [LF] ++ fence.

Definition pdfType : jsstring := lit "application/pdf".

Definition cvPdf : File :=
  {| file_name := lit "cv.pdf"; file_type := pdfType |}.

Definition notesTxt : File :=
  {| file_name := lit "notes.txt"; file_type := lit "text/plain" |}.

(** A one-page document whose only item is [n] letters. *)
Definition letters (n : nat) : list Page := [[repeat 97%N n]].

(** A string literal of a JSON text. *)
Definition quoted (s : string) : jsstring := [DQUOTE] ++ lit s ++ [DQUOTE].

(** [{"overallScore":90}] *)
Definition sampleBody : jsstring :=
  lit "{" ++ quoted "overallScore" ++ lit ":90}".

Definition sampleResult : json :=
  JObject [(lit "overallScore", JNumber (lit "90"))].

(** A resume is loaded and a title is chosen; nothing is in flight. *)
Definition readyState : State :=
  {| selectedJob := lit "Frontend Developer"; customJobTitle := [];
     resumeText := extractText (letters 200);
     resumeFileName := lit "cv.pdf"; rankingResult := None;
     isLoading := false; isParsing := false; error := None |}.

(** The same with the analysis in flight. *)
Definition analyzingState : State :=
  {| selectedJob := lit "Frontend Developer"; customJobTitle := [];
     resumeText := extractText (letters 200);
     resumeFileName := lit "cv.pdf"; rankingResult := None;
     isLoading := true; isParsing := false; error := None |}.

(** The same with the result of the analysis stored. *)
Definition resultState : State :=
  {| selectedJob := lit "Frontend Developer"; customJobTitle := [];
     resumeText := extractText (letters 200);
     resumeFileName := lit "cv.pdf"; rankingResult := Some sampleResult;
     isLoading := false; isParsing := false; error := None |}.

(** "Other" is chosen and the custom title has a space on either side. *)
Definition otherState : State :=
  {| selectedJob := lit "Other"; customJobTitle := lit " ML ";
     resumeText := extractText (letters 200);
     resumeFileName := lit "cv.pdf"; rankingResult := None;
     isLoading := false; isParsing := false; error := None |}.

Definition settled (st : State) : Sys :=
  {| ui := st; parsesInFlight := 0; analysesInFlight := 0 |}.

(** What holds of the resume fields between events when files are chosen
    one parse at a time: with nothing in flight the two fields agree, and
    while the one parse is in flight the name is set and the text empty. *)
Definition resumeInv (s : Sys) : Prop :=
  match parsesInFlight s with
  | O => validPair (ui s) = true /\ isParsing (ui s) = false
  | S O =>
      resumeText (ui s) = [] /\ resumeFileName (ui s) <> [] /\
      isParsing (ui s) = true
  | S (S _) => False
  end.

(** A file without a name. *)
Definition unnamedPdf : File := {| file_name := []; file_type := pdfType |}.

(** A response that opens a tagged fence and never closes it. *)
Definition unclosed (b : jsstring) : jsstring := fenceJson ++ [LF] ++ b.

(** The events that lead from the empty page to an analysis in flight. *)
Definition toAnalyzing : list Event :=
  [ SelectJob (lit "Frontend Developer");
    SelectFile (Some cvPdf);
    PdfSettled (PdfRead (letters 200));
    ClickRank ].

(** ... and on to a stored result. *)
Definition toResult : list Event :=
  toAnalyzing ++ [ ServiceSettled (Responded (Some sampleBody)) ].

(* ================================================================== *)
(** ** The view: conditions and texts the JSX computes from the state *)

Section Guards.

(** The truthiness of a parsed value, tested by [rankingResult && ...]
    and [!rankingResult]. *)
Variable ToBoolean : json -> bool.

Definition resultTruthy (r : option json) : bool :=
  match r with
  | Some v => ToBoolean v
  | None => false
  end.

(** The condition of the loading indicator: [isLoading && ...]. *)
Definition loadingGuard (st : State) : bool := isLoading st.

(** The condition of the placeholder:
    [!isLoading && !rankingResult && ...]. *)
Definition placeholderGuard (st : State) : bool :=
  negb (isLoading st) && negb (resultTruthy (rankingResult st)).

(** The condition of the result display: [rankingResult && ...]. *)
Definition resultsGuard (st : State) : bool :=
  resultTruthy (rankingResult st).

End Guards.

(** The text of the upload label:
    [isParsing ? 'Parsing PDF...'
               : (resumeFileName ? 'Change PDF' : 'Choose PDF File')]. *)
Definition uploadLabelText (st : State) : jsstring :=
  if isParsing st then lit "Parsing PDF..."
  else if negb (falsy (resumeFileName st)) then lit "Change PDF"
  else lit "Choose PDF File".

(** The name in the "Selected:" line, when its condition
    [resumeFileName && ...] holds. *)
Definition selectedFileLine (st : State) : option jsstring :=
  if falsy (resumeFileName st) then None else Some (resumeFileName st).

(* ================================================================== *)
(** ** Scores as real numbers, and the latest selection *)

(** Whether the real number a double stands for is at least the integer
    [t]: for the finite double of mantissa [m] and exponent [e], whether
    [t <= m * 2 ^ e], written without fractions.  [NaN] is at least
    nothing. *)
Definition atLeast (x : Num.number) (t : Z) : bool :=
  match x with
  | S754_nan => false
  | S754_infinity sg => negb sg
  | S754_zero _ => t <=? 0
  | S754_finite sg m e =>
      t * 2 ^ Z.max 0 (- e)
      <=? (if sg then Z.neg m else Z.pos m) * 2 ^ Z.max 0 e
  end.

(** 8.45 and 84.5, as the nearest doubles. *)
Definition d8_45 : Num.number := Num.div (Num.ofZ 845) (Num.ofZ 100).
Definition d84_5 : Num.number := Num.div (Num.ofZ 169) (Num.ofZ 2).

(** The file of the latest selection after a run of events, starting
    from [sel]. *)
Definition selectedAfter (sel : option File) (evs : list Event)
  : option File :=
  fold_left (fun sel ev =>
               match ev with
               | SelectFile (Some f) => Some f
               | _ => sel
               end) evs sel.

Definition lastSelected (evs : list Event) : option File :=
  selectedAfter None evs.

(** With one parse in flight, the stored name is the name of the latest
    selected file, and that file is a PDF. *)
Definition selectedInv (s : Sys) (sel : option File) : Prop :=
  parsesInFlight s = 1%nat ->
  exists f, sel = Some f /\ file_type f = pdfType /\
            resumeFileName (ui s) = file_name f.

(* ================================================================== *)
(** ** What every run keeps *)

(** The message a failed extraction stores. *)
Definition extractionMessage (o : PdfOutcome) : jsstring :=
  match o with
  | PdfRead _ => msgNoReadableText
  | PdfRejected e =>
      if eqb (exn_name e) (lit "PasswordException")
      then msgPasswordProtected else msgCorruptOrUnreadable
  end.

(** The message a failed analysis stores. *)
Definition analysisMessage (o : ServiceOutcome) : jsstring :=
  match o with
  | Responded (Some _) => msgParseFailure
  | _ => msgServiceFailure
  end.

(** At most one analysis is in flight; the loading flag is up exactly
    then, and the result cell is empty meanwhile. *)
Definition busyInv (s : Sys) : Prop :=
  match analysesInFlight s with
  | O => isLoading (ui s) = false
  | S O => isLoading (ui s) = true /\ rankingResult (ui s) = None
  | S (S _) => False
  end.

(** Kept along every run, whatever the interleaving. *)
Definition sessionInv (s : Sys) : Prop :=
  busyInv s /\
  (parsesInFlight s = 0%nat -> isParsing (ui s) = false) /\
  (resumeText (ui s) = [] \/ 50 <= length (trim (resumeText (ui s)))) /\
  error (ui s) <> Some msgValidation.

(** A text made of white space only. *)
Definition blank (s : jsstring) : bool := forallb isWhiteSpace s.

(** The order of the three score classes. *)
Definition bandRank (c : jsstring) : Z :=
  if eqb c (lit "high-score") then 2
  else if eqb c (lit "medium-score") then 1
  else 0.

(** Unfolding of the handlers and of the combinators they are written
    with. *)
Ltac unfold_handler :=
  cbv [handleFileChange handleFileChange_resume handleRankResume
       handleRankResume_resume parseStage jsonParse awaitPdf awaitService
       trimResponseText bind ret return_ throw get try_catch try_finally
       setSelectedJob setCustomJobTitle setResumeText setResumeFileName
       setRankingResult setIsLoading setIsParsing setError fst snd].

(* ================================================================== *)
(** ** Strings: basic facts *)

Lemma eqb_eq (a b : jsstring) : eqb a b = true <-> a = b.
Proof.
  revert b; induction a as [|x a IH]; intros [|y b]; simpl;
    try (split; [discriminate | discriminate]); try tauto.
  rewrite andb_true_iff, N.eqb_eq, IH.
  split; [intros [-> ->]; reflexivity | intros H; inversion H; auto].
Qed.

Lemma eqb_neq (a b : jsstring) : eqb a b = false <-> a <> b.
Proof.
  rewrite <- eqb_eq. destruct (eqb a b); split; congruence.
Qed.

Lemma eqb_refl (a : jsstring) : eqb a a = true.
Proof. apply eqb_eq; reflexivity. Qed.

Lemma falsy_true (s : jsstring) : falsy s = true <-> s = [].
Proof. destruct s; simpl; split; congruence. Qed.

Lemma falsy_false (s : jsstring) : falsy s = false <-> s <> [].
Proof. destruct s; simpl; split; congruence. Qed.

Lemma length_app (a b : jsstring) : length (a ++ b) = length a + length b.
Proof. unfold length. rewrite List.length_app. lia. Qed.

Lemma length_nonneg (s : jsstring) : 0 <= length s.
Proof. unfold length. lia. Qed.

Lemma startsWith_app (p s : jsstring) : startsWith (p ++ s) p = true.
Proof.
  induction p as [|x p IH]; simpl; [reflexivity|].
  now rewrite N.eqb_refl.
Qed.

Lemma startsWith_prefix (s p q : jsstring) :
  startsWith s (p ++ q) = true -> startsWith s p = true.
Proof.
  revert s; induction p as [|x p IH]; intros s; simpl; [reflexivity|].
  destruct s as [|y s]; [discriminate|].
  rewrite !andb_true_iff. intros [H1 H2]. split; [assumption | eauto].
Qed.

Lemma startsWith_length (s p : jsstring) :
  startsWith s p = true -> length p <= length s.
Proof.
  revert s; induction p as [|x p IH]; intros s; simpl.
  - intros _. apply length_nonneg.
  - destruct s as [|y s]; [discriminate|].
    rewrite andb_true_iff. intros [_ H]. apply IH in H.
    unfold length in *. simpl List.length. lia.
Qed.

(** *** [trim] *)

Lemma trimStart_nonws (c : N) (s : jsstring) :
  isWhiteSpace c = false -> trimStart (c :: s) = c :: s.
Proof. intros H; simpl; now rewrite H. Qed.

Lemma trimEnd_snoc_ws (s : jsstring) (c : N) :
  isWhiteSpace c = true -> trimEnd (s ++ [c]) = trimEnd s.
Proof.
  intros H. unfold trimEnd. rewrite rev_app_distr. simpl. now rewrite H.
Qed.

Lemma trimEnd_snoc_nonws (s : jsstring) (c : N) :
  isWhiteSpace c = false -> trimEnd (s ++ [c]) = s ++ [c].
Proof.
  intros H. unfold trimEnd. rewrite rev_app_distr. simpl. rewrite H.
  simpl. now rewrite rev_involutive.
Qed.

Lemma trim_snoc_ws (s : jsstring) (c : N) :
  isWhiteSpace c = true -> trim (s ++ [c]) = trim s.
Proof.
  intros H. unfold trim. induction s as [|a s IH]; simpl.
  - now rewrite H.
  - destruct (isWhiteSpace a) eqn:Ha; [exact IH|].
    change (a :: s ++ [c]) with ((a :: s) ++ [c]).
    now apply trimEnd_snoc_ws.
Qed.

Lemma trim_cons_ws (c : N) (s : jsstring) :
  isWhiteSpace c = true -> trim (c :: s) = trim s.
Proof. intros H. unfold trim. simpl. now rewrite H. Qed.

(** White space around a text does not survive [trim]. *)
Lemma trim_padded (c1 c2 : N) (s : jsstring) :
  isWhiteSpace c1 = true -> isWhiteSpace c2 = true ->
  trim ([c1] ++ s ++ [c2]) = trim s.
Proof.
  intros H1 H2. simpl. rewrite trim_cons_ws by assumption.
  now apply trim_snoc_ws.
Qed.

(** A text that neither starts nor ends with white space is its own
    trimmed form. *)
Lemma trim_fixed (a z : N) (m : jsstring) :
  isWhiteSpace a = false -> isWhiteSpace z = false ->
  trim (a :: m ++ [z]) = a :: m ++ [z].
Proof.
  intros Ha Hz. unfold trim. rewrite trimStart_nonws by assumption.
  change (a :: m ++ [z]) with ((a :: m) ++ [z]).
  now apply trimEnd_snoc_nonws.
Qed.

Lemma trim_nonempty (s : jsstring) : 0 < length (trim s) -> s <> [].
Proof. intros H ->. cbn in H. lia. Qed.

(** The first code unit of a trimmed text is the first one of the text
    that is not white space. *)
Lemma trimEnd_cons_nonws (c : N) (s : jsstring) :
  isWhiteSpace c = false -> exists s', trimEnd (c :: s) = c :: s'.
Proof.
  intros H. induction s as [|x s IH] using rev_ind.
  - exists []. unfold trimEnd. simpl. now rewrite H.
  - destruct (isWhiteSpace x) eqn:Hx.
    + change (c :: s ++ [x]) with ((c :: s) ++ [x]).
      rewrite trimEnd_snoc_ws by assumption. exact IH.
    + exists (s ++ [x]).
      change (c :: s ++ [x]) with ((c :: s) ++ [x]).
      now apply trimEnd_snoc_nonws.
Qed.

(** *** [substring] *)

Lemma substring_middle (p m t : jsstring) (n k : Z) :
  n = length p -> k = length t ->
  substring (p ++ m ++ t) n (length (p ++ m ++ t) - k) = m.
Proof.
  intros -> ->. unfold substring, clamp.
  rewrite !length_app.
  pose proof (length_nonneg p). pose proof (length_nonneg m).
  pose proof (length_nonneg t).
  replace (Z.min (Z.max (length p) 0) (length p + (length m + length t)))
    with (length p) by lia.
  replace (Z.min (Z.max (length p + (length m + length t) - length t) 0)
                 (length p + (length m + length t)))
    with (length p + length m) by lia.
  replace (Z.min (length p) (length p + length m)) with (length p) by lia.
  replace (Z.max (length p) (length p + length m) - length p)
    with (length m) by lia.
  unfold length. rewrite !Nat2Z.id.
  rewrite skipn_app, skipn_all, Nat.sub_diag. simpl.
  rewrite firstn_app, firstn_all, Nat.sub_diag. simpl.
  now rewrite app_nil_r.
Qed.

(* ================================================================== *)
(** ** [handleFileChange]: the two halves *)

(** A file that is not a PDF: the handler returns before any read, with
    the message stored and both resume fields emptied; every other cell is
    as it was. *)
Lemma handleFileChange_non_pdf (f : File) (st : State) :
  file_type f <> pdfType ->
  handleFileChange (Some f) st =
    ({| selectedJob := selectedJob st; customJobTitle := customJobTitle st;
        resumeText := []; resumeFileName := [];
        rankingResult := rankingResult st; isLoading := isLoading st;
        isParsing := isParsing st; error := Some msgUnsupportedFormat |},
     Returned).
Proof.
  intros H. apply eqb_neq in H. unfold_handler.
  fold pdfType. now rewrite H.
Qed.

(** A PDF: the handler suspends on the reads of the file, with the file
    name stored, the text emptied, and the result and the message
    cleared. *)
Lemma handleFileChange_pdf (f : File) (st : State) :
  file_type f = pdfType ->
  handleFileChange (Some f) st =
    ({| selectedJob := selectedJob st; customJobTitle := customJobTitle st;
        resumeText := []; resumeFileName := file_name f;
        rankingResult := None; isLoading := isLoading st;
        isParsing := true; error := None |},
     Normal f).
Proof.
  intros H. apply eqb_eq in H. unfold_handler.
  fold pdfType. now rewrite H.
Qed.

(** The reads succeeded and the trimmed text is too short. *)
Lemma handleFileChange_resume_short (pages : list Page) (st : State) :
  length (trim (extractText pages)) < 50 ->
  handleFileChange_resume (PdfRead pages) st =
    ({| selectedJob := selectedJob st; customJobTitle := customJobTitle st;
        resumeText := []; resumeFileName := [];
        rankingResult := rankingResult st; isLoading := isLoading st;
        isParsing := false; error := Some msgNoReadableText |},
     Returned).
Proof.
  intros H. apply Z.ltb_lt in H. unfold_handler. now rewrite H.
Qed.

(** The reads succeeded and the trimmed text is long enough. *)
Lemma handleFileChange_resume_long (pages : list Page) (st : State) :
  50 <= length (trim (extractText pages)) ->
  handleFileChange_resume (PdfRead pages) st =
    ({| selectedJob := selectedJob st; customJobTitle := customJobTitle st;
        resumeText := extractText pages;
        resumeFileName := resumeFileName st;
        rankingResult := rankingResult st; isLoading := isLoading st;
        isParsing := false; error := error st |},
     Normal tt).
Proof.
  intros H. apply Z.ltb_ge in H. unfold_handler. now rewrite H.
Qed.

(** A read was rejected. *)
Lemma handleFileChange_resume_rejected (e : exn) (st : State) :
  handleFileChange_resume (PdfRejected e) st =
    ({| selectedJob := selectedJob st; customJobTitle := customJobTitle st;
        resumeText := []; resumeFileName := [];
        rankingResult := rankingResult st; isLoading := isLoading st;
        isParsing := false;
        error := Some (if eqb (exn_name e) (lit "PasswordException")
                       then msgPasswordProtected
                       else msgCorruptOrUnreadable) |},
     Normal tt).
Proof.
  unfold_handler. now destruct (eqb (exn_name e) (lit "PasswordException")).
Qed.

(** C7: a selected file whose declared type is not the PDF type is
    rejected at once.  The handler returns before its first [await], so no
    read of the file is started and the number of parses in flight is what
    it was; the unsupported-format message is stored; the file name and the
    resume text are both empty afterwards. *)
Theorem C7_non_pdf_rejected (JSON_parse : jsstring -> option json)
    (f : File) (s : Sys) :
  file_type f <> pdfType ->
  snd (handleFileChange (Some f) (ui s)) = Returned /\
  exists s',
    step JSON_parse s (SelectFile (Some f)) = Some s' /\
    parsesInFlight s' = parsesInFlight s /\
    error (ui s') = Some msgUnsupportedFormat /\
    resumeFileName (ui s') = [] /\
    resumeText (ui s') = [].
Proof.
  intros H. pose proof (handleFileChange_non_pdf f (ui s) H) as E.
  split; [now rewrite E|].
  unfold step. rewrite E. eexists; split; [reflexivity|]. simpl. auto.
Qed.

Lemma C7_non_pdf_rejected_witness :
  file_type notesTxt <> pdfType /\
  snd (handleFileChange (Some notesTxt) readyState) = Returned.
Proof.
  assert (H : file_type notesTxt <> pdfType) by (vm_compute; discriminate).
  split; [exact H|].
  exact (proj1 (C7_non_pdf_rejected JSONText.parse notesTxt
                  {| ui := readyState; parsesInFlight := 0;
                     analysesInFlight := 0 |} H)).
Defined.

(** C9: selecting a file that is not a PDF leaves the stored result, the
    job selection and both flags as they were: only the message and the
    two resume fields change.  The result and the message are cleared on
    the branch that starts a parse, and selecting no file changes
    nothing. *)
Theorem C9_non_pdf_keeps_result (f : File) (st : State) :
  (file_type f <> pdfType ->
   let st' := fst (handleFileChange (Some f) st) in
   rankingResult st' = rankingResult st /\
   error st' = Some msgUnsupportedFormat /\
   resumeFileName st' = [] /\ resumeText st' = [] /\
   selectedJob st' = selectedJob st /\
   customJobTitle st' = customJobTitle st /\
   isLoading st' = isLoading st /\ isParsing st' = isParsing st) /\
  (file_type f = pdfType ->
   let st' := fst (handleFileChange (Some f) st) in
   rankingResult st' = None /\ error st' = None /\ isParsing st' = true) /\
  fst (handleFileChange None st) = st.
Proof.
  split; [|split].
  - intros H st'. subst st'. rewrite (handleFileChange_non_pdf f st H).
    simpl. repeat split.
  - intros H st'. subst st'. rewrite (handleFileChange_pdf f st H).
    simpl. repeat split.
  - reflexivity.
Qed.

(** C4: when every page of the PDF was read, the length of the trimmed
    concatenated text decides.  Below 50 code units the handler stores the
    no-readable-text message, empties the file name and the text and
    returns; from 50 on it stores the text as extracted and leaves the
    message alone, so that a parse started by [handleFileChange] ends with
    no message at all. *)
Theorem C4_readable_text_threshold (pages : list Page) (st : State) :
  (length (trim (extractText pages)) < 50 ->
   let st' := fst (handleFileChange_resume (PdfRead pages) st) in
   error st' = Some msgNoReadableText /\
   resumeFileName st' = [] /\ resumeText st' = [] /\
   isParsing st' = false) /\
  (50 <= length (trim (extractText pages)) ->
   let st' := fst (handleFileChange_resume (PdfRead pages) st) in
   snd (handleFileChange_resume (PdfRead pages) st) = Normal tt /\
   resumeText st' = extractText pages /\
   resumeFileName st' = resumeFileName st /\
   error st' = error st /\ isParsing st' = false) /\
  (50 <= length (trim (extractText pages)) ->
   forall (f : File) (st0 : State),
     handleFileChange (Some f) st0 = (st, Normal f) ->
     let st' := fst (handleFileChange_resume (PdfRead pages) st) in
     error st' = None /\ resumeFileName st' = file_name f /\
     resumeText st' = extractText pages).
Proof.
  split; [|split].
  - intros H st'. subst st'. rewrite (handleFileChange_resume_short _ st H).
    simpl. repeat split.
  - intros H st'. subst st'. rewrite (handleFileChange_resume_long _ st H).
    simpl. repeat split.
  - intros H f st0 E st'. subst st'.
    rewrite (handleFileChange_resume_long _ st H). simpl.
    destruct (eqb (file_type f) pdfType) eqn:T.
    + apply eqb_eq in T. rewrite (handleFileChange_pdf f st0 T) in E.
      inversion E; subst; simpl. repeat split.
    + apply eqb_neq in T. rewrite (handleFileChange_non_pdf f st0 T) in E.
      discriminate.
Qed.

(** The boundary: 49 letters are refused, 50 are stored. *)
Lemma C4_readable_text_threshold_witness :
  (length (trim (extractText (letters 49))) = 49 /\
   error (fst (handleFileChange_resume (PdfRead (letters 49)) readyState))
     = Some msgNoReadableText) /\
  (length (trim (extractText (letters 50))) = 50 /\
   resumeText (fst (handleFileChange_resume (PdfRead (letters 50))
                      readyState))
     = extractText (letters 50)).
Proof.
  split; (split; [vm_compute; reflexivity|]).
  - apply (proj1 (C4_readable_text_threshold (letters 49) readyState)).
    vm_compute; reflexivity.
  - apply (proj1 (proj2 (C4_readable_text_threshold (letters 50)
                           readyState))).
    vm_compute; discriminate.
Defined.

Lemma C9_non_pdf_keeps_result_witness :
  file_type notesTxt <> pdfType /\
  rankingResult (fst (handleFileChange (Some notesTxt) resultState))
    = Some sampleResult /\
  error (fst (handleFileChange (Some notesTxt) resultState))
    = Some msgUnsupportedFormat.
Proof.
  assert (H : file_type notesTxt <> pdfType) by (vm_compute; discriminate).
  split; [exact H|].
  destruct (proj1 (C9_non_pdf_keeps_result notesTxt resultState) H)
    as (R & E & _).
  split; [exact R | exact E].
Defined.

(* ================================================================== *)
(** ** [getScoreColor] *)

(** The number of binary digits of a mantissa bounds it on both sides. *)
Lemma digits2_pos_bounds (m : positive) :
  2 ^ (Z.pos (digits2_pos m) - 1) <= Z.pos m < 2 ^ Z.pos (digits2_pos m).
Proof.
  induction m as [m IH|m IH|]; cbn [digits2_pos].
  - rewrite Pos2Z.inj_succ.
    replace (Z.succ (Z.pos (digits2_pos m)) - 1)
      with (Z.succ (Z.pos (digits2_pos m) - 1)) by lia.
    rewrite !Z.pow_succ_r by lia. lia.
  - rewrite Pos2Z.inj_succ.
    replace (Z.succ (Z.pos (digits2_pos m)) - 1)
      with (Z.succ (Z.pos (digits2_pos m) - 1)) by lia.
    rewrite !Z.pow_succ_r by lia. lia.
  - simpl. lia.
Qed.

Lemma pow2_split (a b : Z) :
  0 <= a -> 0 <= b -> 2 ^ (a + b) = 2 ^ a * 2 ^ b.
Proof. intros. now apply Z.pow_add_r. Qed.

Lemma pow2_ge_2 (k : Z) : 1 <= k -> 2 <= 2 ^ k.
Proof.
  intros H. replace k with (Z.succ (k - 1)) by lia.
  rewrite Z.pow_succ_r by lia.
  pose proof (Z.pow_pos_nonneg 2 (k - 1)). lia.
Qed.

(** The comparison of doubles against a normal positive double that is
    an integer [t] decides [t <= x] on the real numbers. *)
Lemma leb_const_correct (mc : positive) (ec t : Z) (x : Num.number) :
  Z.pos (digits2_pos mc) = 53 -> ec < 0 -> -1074 < ec -> 0 < t ->
  Z.pos mc = t * 2 ^ (- ec) ->
  Num.valid x = true ->
  SFleb (S754_finite false mc ec) x = atLeast x t.
Proof.
  intros D E1 E2 T M V.
  pose proof (digits2_pos_bounds mc) as Bc. rewrite D in Bc.
  change (2 ^ (53 - 1)) with 4503599627370496 in Bc.
  change (2 ^ 53) with 9007199254740992 in Bc.
  destruct x as [sg|sg| |sg m e]; unfold SFleb; cbn [SFcompare atLeast].
  - symmetry. apply Z.leb_gt. lia.
  - now destruct sg.
  - reflexivity.
  - destruct sg.
    + symmetry. apply Z.leb_gt.
      pose proof (Z.pow_pos_nonneg 2 (Z.max 0 (- e))).
      pose proof (Z.pow_pos_nonneg 2 (Z.max 0 e)). nia.
    + unfold Num.valid in V. cbn [valid_binary] in V.
      unfold bounded, canonical_mantissa in V.
      apply andb_true_iff in V. destruct V as [C B].
      apply Z.eqb_eq in C. apply Z.leb_le in B.
      unfold fexp, emin, Num.prec, Num.emax in *.
      pose proof (digits2_pos_bounds m) as Bm.
      set (d := Z.pos (digits2_pos m)) in *.
      assert (Dpos : 1 <= d) by (unfold d; lia).
      destruct (Z.compare_spec ec e) as [Q|Q|Q].
      * subst e. change (Pos.compare_cont Eq mc m) with (Pos.compare mc m).
        rewrite (Z.max_r 0 (- ec)), (Z.max_l 0 ec) by lia.
        rewrite <- M. change (2 ^ 0) with 1. rewrite Z.mul_1_r.
        destruct (Pos.compare_spec mc m) as [P|P|P]; symmetry;
          [apply Z.leb_le | apply Z.leb_le | apply Z.leb_gt]; lia.
      * assert (d = 53) by lia.
        assert (Hm : 4503599627370496 <= Z.pos m).
        { destruct Bm as [Bm _]. replace d with 53 in Bm by lia.
          exact Bm. }
        symmetry. apply Z.leb_le.
        destruct (Z.le_gt_cases 0 e) as [P|P].
        -- rewrite (Z.max_l 0 (- e)), (Z.max_r 0 e) by lia.
           change (2 ^ 0) with 1.
           pose proof (Z.pow_pos_nonneg 2 e).
           pose proof (pow2_ge_2 (- ec)). nia.
        -- rewrite (Z.max_r 0 (- e)), (Z.max_l 0 e) by lia.
           change (2 ^ 0) with 1.
           assert (S : 2 ^ (- ec) = 2 ^ (- e) * 2 ^ (e - ec)).
           { rewrite <- pow2_split by lia. f_equal. lia. }
           pose proof (pow2_ge_2 (e - ec)).
           pose proof (Z.pow_pos_nonneg 2 (- e)). nia.
      * assert (Hd : d <= 53) by lia.
        assert (Hm : Z.pos m < 9007199254740992).
        { destruct Bm as [_ Bm].
          assert (2 ^ d <= 2 ^ 53) by (apply Z.pow_le_mono_r; lia).
          change (2 ^ 53) with 9007199254740992 in *. lia. }
        symmetry. apply Z.leb_gt.
        rewrite (Z.max_r 0 (- e)), (Z.max_l 0 e) by lia.
        change (2 ^ 0) with 1.
        assert (S : 2 ^ (- e) = 2 ^ (- ec) * 2 ^ (ec - e)).
        { rewrite <- pow2_split by lia. f_equal. lia. }
        pose proof (pow2_ge_2 (ec - e)).
        pose proof (Z.pow_pos_nonneg 2 (- ec)). nia.
Qed.

(** The two tests of [getScoreColor] decide [85 <= x] and [60 <= x]. *)
Lemma ge_85_correct (x : Num.number) :
  Num.valid x = true -> Num.ge x (Num.ofZ 85) = atLeast x 85.
Proof.
  intros V. unfold Num.ge.
  change (Num.ofZ 85) with (S754_finite false 5981343255101440 (-46)).
  apply leb_const_correct; try reflexivity; try lia. exact V.
Qed.

Lemma ge_60_correct (x : Num.number) :
  Num.valid x = true -> Num.ge x (Num.ofZ 60) = atLeast x 60.
Proof.
  intros V. unfold Num.ge.
  change (Num.ofZ 60) with (S754_finite false 8444249301319680 (-47)).
  apply leb_const_correct; try reflexivity; try lia. exact V.
Qed.

(** C8: for every double [s], read as the real number it stands for, a
    score of 85 or more is banded high, one from 60 to below 85 medium,
    and one below 60 low (as is a score that is not a number).  The card
    of a breakdown item bands the item's score times ten, the product of
    doubles, with the same function, so that an item score of 9 has the
    band of an overall score of 90. *)
Theorem C8_score_banding (s : Num.number) (item : RankingBreakdown) :
  Num.valid s = true ->
  (atLeast s 85 = true -> getScoreColor s = lit "high-score") /\
  (atLeast s 60 = true -> atLeast s 85 = false ->
   getScoreColor s = lit "medium-score") /\
  (atLeast s 60 = false -> getScoreColor s = lit "low-score") /\
  breakdownScoreColor item
    = getScoreColor (Num.mul (score item) (Num.ofZ 10)) /\
  (score item = Num.ofZ 9 ->
   breakdownScoreColor item = getScoreColor (Num.ofZ 90)).
Proof.
  intros V. unfold breakdownScoreColor, getScoreColor.
  rewrite (ge_85_correct s V), (ge_60_correct s V).
  split; [|split; [|split; [|split]]].
  - now intros ->.
  - now intros -> ->.
  - intros L.
    assert (H : atLeast s 85 = false).
    { destruct s as [sg|sg| |sg m e]; cbn [atLeast] in *;
        try (apply Z.leb_gt; apply Z.leb_gt in L); try congruence.
      - lia.
      - pose proof (Z.pow_pos_nonneg 2 (Z.max 0 (- e))). nia. }
    now rewrite H, L.
  - reflexivity.
  - now intros ->.
Qed.

(** The boundary on integers, and a score that is not one: 8.45 times
    ten is 84.5 and is banded medium. *)
Lemma C8_score_banding_witness :
  getScoreColor (Num.ofZ 85) = lit "high-score" /\
  getScoreColor (Num.ofZ 84) = lit "medium-score" /\
  getScoreColor (Num.ofZ 59) = lit "low-score" /\
  (Num.mul d8_45 (Num.ofZ 10) = d84_5 /\
   breakdownScoreColor {| criterion := lit "Skills"; score := d8_45;
                          feedback := [] |} = lit "medium-score") /\
  breakdownScoreColor {| criterion := lit "Skills"; score := Num.ofZ 9;
                         feedback := [] |} = lit "high-score".
Proof.
  pose (it := {| criterion := lit "Skills"; score := Num.ofZ 9;
                 feedback := [] |}).
  destruct (C8_score_banding (Num.ofZ 85) it eq_refl) as (H1 & _ & _ & _ & H5).
  destruct (C8_score_banding (Num.ofZ 84) it eq_refl) as (_ & H2 & _).
  destruct (C8_score_banding (Num.ofZ 59) it eq_refl) as (_ & _ & H3 & _).
  destruct (C8_score_banding d84_5 it eq_refl) as (_ & H4 & _).
  split; [apply H1; reflexivity|].
  split; [apply H2; reflexivity|].
  split; [apply H3; reflexivity|].
  split; [split; [reflexivity | apply H4; reflexivity]|].
  exact (H5 eq_refl).
Defined.

(* ================================================================== *)
(** ** [handleRankResume]: the trigger *)

Lemma jobToRank_other (st : State) :
  selectedJob st = lit "Other" -> jobToRank st = customJobTitle st.
Proof. intros H. unfold jobToRank. now rewrite H. Qed.

Lemma jobToRank_predefined (st : State) :
  selectedJob st <> lit "Other" -> jobToRank st = selectedJob st.
Proof. intros H. apply eqb_neq in H. unfold jobToRank. now rewrite H. Qed.

(** With a title and a text, the handler issues the request. *)
Lemma handleRankResume_started (st : State) :
  jobToRank st <> [] -> resumeText st <> [] ->
  handleRankResume st =
    ({| selectedJob := selectedJob st; customJobTitle := customJobTitle st;
        resumeText := resumeText st; resumeFileName := resumeFileName st;
        rankingResult := None; isLoading := true;
        isParsing := isParsing st; error := None |},
     Normal {| req_jobToRank := jobToRank st;
               req_resumeText := resumeText st |}).
Proof.
  intros H1 H2. apply falsy_false in H1, H2. unfold_handler.
  now rewrite H1, H2.
Qed.

(** Without one of them, it stores the validation message and returns. *)
Lemma handleRankResume_rejected (st : State) :
  jobToRank st = [] \/ resumeText st = [] ->
  handleRankResume st =
    ({| selectedJob := selectedJob st; customJobTitle := customJobTitle st;
        resumeText := resumeText st; resumeFileName := resumeFileName st;
        rankingResult := rankingResult st; isLoading := isLoading st;
        isParsing := isParsing st; error := Some msgValidation |},
     Returned).
Proof.
  intros H. unfold_handler.
  assert (E : falsy (jobToRank st) || falsy (resumeText st) = true).
  { apply orb_true_iff. destruct H as [H|H]; [left|right];
      now apply falsy_true. }
  now rewrite E.
Qed.

Lemma handleRankResume_request (st st' : State) (req : Request) :
  handleRankResume st = (st', Normal req) ->
  req_jobToRank req = jobToRank st /\ req_resumeText req = resumeText st /\
  jobToRank st <> [] /\ resumeText st <> [].
Proof.
  intros E.
  destruct (jobToRank st) as [|c j] eqn:J.
  - rewrite handleRankResume_rejected in E by (left; exact J).
    discriminate.
  - destruct (resumeText st) as [|d t] eqn:T.
    + rewrite handleRankResume_rejected in E by (right; exact T).
      discriminate.
    + rewrite handleRankResume_started in E by (rewrite ?J, ?T; discriminate).
      inversion E; subst; simpl. rewrite J, T.
      repeat split; discriminate.
Qed.

(** C2, as the code has it: for every selected title other than "Other"
    the effective job title, and the title of the request a trigger
    issues, is the selected title; when "Other" is selected it is the
    custom text exactly as typed, with no trimming, and with an empty
    custom text the button is disabled and the handler itself returns
    without issuing a request. *)
Theorem C2_effective_job_title (st : State) :
  (selectedJob st <> lit "Other" ->
   jobToRank st = selectedJob st /\
   forall st' req, handleRankResume st = (st', Normal req) ->
                   req_jobToRank req = selectedJob st) /\
  (selectedJob st = lit "Other" ->
   jobToRank st = customJobTitle st /\
   (forall st' req, handleRankResume st = (st', Normal req) ->
                    req_jobToRank req = customJobTitle st) /\
   (customJobTitle st = [] ->
    disabled st = true /\ snd (handleRankResume st) = Returned)).
Proof.
  split.
  - intros H. pose proof (jobToRank_predefined st H) as J.
    split; [exact J|]. intros st' req E.
    apply handleRankResume_request in E. destruct E as (E & _).
    congruence.
  - intros H. pose proof (jobToRank_other st H) as J.
    split; [exact J|]. split.
    + intros st' req E.
      apply handleRankResume_request in E. destruct E as (E & _).
      congruence.
    + intros C. split.
      * unfold disabled. rewrite H, C. simpl.
        now rewrite !orb_true_r.
      * rewrite handleRankResume_rejected by (left; congruence).
        reflexivity.
Qed.

Lemma C2_effective_job_title_witness :
  jobToRank readyState = lit "Frontend Developer" /\
  jobToRank otherState = lit " ML ".
Proof.
  split.
  - apply (proj1 (C2_effective_job_title readyState)).
    vm_compute; discriminate.
  - apply (proj2 (C2_effective_job_title otherState)).
    reflexivity.
Defined.

(** C2 as stated fails: with "Other" selected and the custom text " ML ",
    the trigger issues a request for " ML ", which is not the trimmed
    text "ML". *)
Lemma C2_custom_title_not_trimmed :
  snd (handleRankResume otherState)
    = Normal {| req_jobToRank := lit " ML ";
                req_resumeText := resumeText otherState |} /\
  trim (customJobTitle otherState) = lit "ML" /\
  jobToRank otherState <> trim (customJobTitle otherState).
Proof.
  split; [vm_compute; reflexivity|].
  split; [vm_compute; reflexivity|].
  vm_compute; discriminate.
Qed.




(* ================================================================== *)
(** ** Fence stripping *)

Lemma stripFence_unfenced (t : jsstring) :
  startsWith t fence = false -> stripFence t = t.
Proof.
  intros H. unfold stripFence. rewrite H.
  destruct (startsWith t fenceJson) eqn:J; [|reflexivity].
  change fenceJson with (fence ++ lit "json") in J.
  apply startsWith_prefix in J. congruence.
Qed.

Lemma trim_fencedJson (b : jsstring) : trim (fencedJson b) = fencedJson b.
Proof.
  replace (fencedJson b)
    with (96%N :: (lit "``json" ++ [LF] ++ b ++ [LF] ++ lit "``") ++ [96%N]).
  - now apply trim_fixed.
  - unfold fencedJson. simpl. rewrite <- !app_assoc. reflexivity.
Qed.

Lemma trim_fencedPlain (b : jsstring) : trim (fencedPlain b) = fencedPlain b.
Proof.
  replace (fencedPlain b)
    with (96%N :: (lit "``" ++ [LF] ++ b ++ [LF] ++ lit "``") ++ [96%N]).
  - now apply trim_fixed.
  - unfold fencedPlain. simpl. rewrite <- !app_assoc. reflexivity.
Qed.

Lemma stripFence_fencedJson (b : jsstring) :
  stripFence (fencedJson b) = trim b.
Proof.
  unfold stripFence, fencedJson. rewrite startsWith_app.
  replace (fenceJson ++ [LF] ++ b ++ [LF] ++ fence)
    with (fenceJson ++ ([LF] ++ b ++ [LF]) ++ fence)
    by (now rewrite <- !app_assoc).
  rewrite substring_middle by reflexivity.
  now apply trim_padded.
Qed.

Lemma stripFence_fencedPlain (b : jsstring) :
  stripFence (fencedPlain b) = trim b.
Proof.
  unfold stripFence.
  assert (J : startsWith (fencedPlain b) fenceJson = false) by reflexivity.
  rewrite J. unfold fencedPlain. rewrite startsWith_app.
  replace (fence ++ [LF] ++ b ++ [LF] ++ fence)
    with (fence ++ ([LF] ++ b ++ [LF]) ++ fence)
    by (now rewrite <- !app_assoc).
  rewrite substring_middle by reflexivity.
  now apply trim_padded.
Qed.

(** C5: for a body whose trimmed text does not itself open a fence, as no
    JSON text does, the text handed to [JSON.parse] is the same for the
    body in a fence tagged as JSON, for the body in an untagged fence and
    for the bare body; so the handler ends in the same state, with the
    same result stored, in the three cases. *)
Theorem C5_fence_stripping_content_neutral
    (JSON_parse : jsstring -> option json) (b : jsstring) (st : State) :
  startsWith (trim b) fence = false ->
  stripFence (trim (fencedJson b)) = stripFence (trim b) /\
  stripFence (trim (fencedPlain b)) = stripFence (trim b) /\
  handleRankResume_resume JSON_parse (Responded (Some (fencedJson b))) st
    = handleRankResume_resume JSON_parse (Responded (Some b)) st /\
  handleRankResume_resume JSON_parse (Responded (Some (fencedPlain b))) st
    = handleRankResume_resume JSON_parse (Responded (Some b)) st.
Proof.
  intros H.
  assert (E1 : stripFence (trim (fencedJson b)) = stripFence (trim b)).
  { rewrite trim_fencedJson, stripFence_fencedJson.
    now rewrite stripFence_unfenced. }
  assert (E2 : stripFence (trim (fencedPlain b)) = stripFence (trim b)).
  { rewrite trim_fencedPlain, stripFence_fencedPlain.
    now rewrite stripFence_unfenced. }
  repeat split; try assumption; unfold_handler.
  - now rewrite E1.
  - now rewrite E2.
Qed.

Lemma C5_fence_stripping_content_neutral_witness :
  startsWith (trim sampleBody) fence = false /\
  rankingResult
    (fst (handleRankResume_resume JSONText.parse
            (Responded (Some (fencedJson sampleBody))) analyzingState))
    = Some sampleResult.
Proof.
  assert (H : startsWith (trim sampleBody) fence = false)
    by (vm_compute; reflexivity).
  split; [exact H|].
  destruct (C5_fence_stripping_content_neutral JSONText.parse sampleBody
              analyzingState H) as (_ & _ & E & _).
  rewrite E. vm_compute. reflexivity.
Defined.

(** *** The reader accepts no text that opens a fence *)

Lemma isWhiteSpace_printable (c : N) :
  (33 <= c <= 159)%N -> isWhiteSpace c = false.
Proof.
  intros H. unfold isWhiteSpace.
  replace (c <=? 13)%N with false by (symmetry; apply N.leb_gt; lia).
  replace (8192 <=? c)%N with false by (symmetry; apply N.leb_gt; lia).
  replace (c =? 32)%N with false by (symmetry; apply N.eqb_neq; lia).
  replace (c =? 160)%N with false by (symmetry; apply N.eqb_neq; lia).
  replace (c =? 5760)%N with false by (symmetry; apply N.eqb_neq; lia).
  replace (c =? 8232)%N with false by (symmetry; apply N.eqb_neq; lia).
  replace (c =? 8233)%N with false by (symmetry; apply N.eqb_neq; lia).
  replace (c =? 8239)%N with false by (symmetry; apply N.eqb_neq; lia).
  replace (c =? 8287)%N with false by (symmetry; apply N.eqb_neq; lia).
  replace (c =? 12288)%N with false by (symmetry; apply N.eqb_neq; lia).
  replace (c =? 65279)%N with false by (symmetry; apply N.eqb_neq; lia).
  now rewrite andb_false_r.
Qed.

Lemma isJsonWs_isWhiteSpace (c : N) :
  JSONText.isJsonWs c = true -> isWhiteSpace c = true.
Proof.
  unfold JSONText.isJsonWs. rewrite !orb_true_iff, !N.eqb_eq.
  intros [[[-> | ->] | ->] | ->]; reflexivity.
Qed.

Lemma skipWs_trimStart (s r : jsstring) (c : N) :
  JSONText.skipWs s = c :: r -> isWhiteSpace c = false ->
  trimStart s = c :: r.
Proof.
  intros E W. induction s as [|a s IH]; simpl in *; [discriminate|].
  destruct (JSONText.isJsonWs a) eqn:A.
  - rewrite (isJsonWs_isWhiteSpace a A). auto.
  - inversion E; subst. now rewrite W.
Qed.

Lemma isDigit_range (c : N) :
  JSONText.isDigit c = true -> (48 <= c <= 57)%N.
Proof.
  unfold JSONText.isDigit. rewrite andb_true_iff, !N.leb_le. tauto.
Qed.

Lemma readNumber_first (c : N) (r n r' : jsstring) :
  JSONText.readNumber (c :: r) = Some (n, r') -> (45 <= c <= 57)%N.
Proof.
  unfold JSONText.readNumber.
  destruct (N.eqb_spec c 45) as [-> | _]; [lia|].
  unfold JSONText.readInt.
  destruct (N.eqb_spec c 48) as [-> | _]; [lia|].
  destruct (JSONText.isDigit c) eqn:D; [|discriminate].
  apply isDigit_range in D. lia.
Qed.

Lemma startsWith_head (c x : N) (r p : jsstring) :
  startsWith (c :: r) (x :: p) = true -> c = x.
Proof.
  simpl. rewrite andb_true_iff, N.eqb_eq. intros [H _]. now symmetry.
Qed.

Lemma readValue_first (fuel : nat) (s r : jsstring) (v : json) :
  JSONText.readValue fuel s = Some (v, r) ->
  exists c r0, JSONText.skipWs s = c :: r0 /\
               (33 <= c <= 159)%N /\ c <> 96%N.
Proof.
  destruct fuel as [|fuel]; [discriminate|].
  cbn -[N.eqb startsWith lit skipn JSONText.skipWs JSONText.readNumber
        JSONText.readChars JSONText.readMembers JSONText.readElements].
  destruct (JSONText.skipWs s) as [|c r0]; [discriminate|].
  intros E. exists c, r0. split; [reflexivity|]. revert E.
  destruct (N.eqb_spec c 123) as [-> | _]; [intros _; lia|].
  destruct (N.eqb_spec c 91) as [-> | _]; [intros _; lia|].
  destruct (N.eqb_spec c 34) as [-> | _]; [intros _; lia|].
  destruct (startsWith (c :: r0) (lit "true")) eqn:T;
    [apply startsWith_head in T; cbv in T; subst c; intros _; lia|].
  destruct (startsWith (c :: r0) (lit "false")) eqn:F;
    [apply startsWith_head in F; cbv in F; subst c; intros _; lia|].
  destruct (startsWith (c :: r0) (lit "null")) eqn:U;
    [apply startsWith_head in U; cbv in U; subst c; intros _; lia|].
  destruct (JSONText.readNumber (c :: r0)) as [[n r']|] eqn:R;
    [intros _|discriminate].
  apply readNumber_first in R. lia.
Qed.

(** Every text the reader accepts satisfies the premise of C5. *)
Lemma json_text_opens_no_fence (b : jsstring) (v : json) :
  JSONText.parse b = Some v -> startsWith (trim b) fence = false.
Proof.
  unfold JSONText.parse.
  destruct (JSONText.readValue _ b) as [[v' r]|] eqn:R; [|discriminate].
  intros _. apply readValue_first in R.
  destruct R as (c & r0 & S & Hc & N96).
  pose proof (isWhiteSpace_printable c Hc) as W.
  unfold trim. rewrite (skipWs_trimStart b r0 c S W).
  destruct (trimEnd_cons_nonws c r0 W) as [s' ->].
  change (startsWith (c :: s') fence)
    with ((96 =? c)%N && startsWith s' (lit "``")).
  apply N.eqb_neq in N96. rewrite N.eqb_sym in N96. now rewrite N96.
Qed.

(* ================================================================== *)
(** ** [handleRankResume]: the settlement of the request *)

(** A response with a text: the stripped text is parsed, and the result
    or the parse-failure message is stored. *)
Lemma handleRankResume_resume_text (JSON_parse : jsstring -> option json)
    (raw : jsstring) (st : State) :
  handleRankResume_resume JSON_parse (Responded (Some raw)) st =
    (match JSON_parse (stripFence (trim raw)) with
     | Some v =>
         {| selectedJob := selectedJob st;
            customJobTitle := customJobTitle st;
            resumeText := resumeText st;
            resumeFileName := resumeFileName st;
            rankingResult := Some v; isLoading := false;
            isParsing := isParsing st; error := error st |}
     | None =>
         {| selectedJob := selectedJob st;
            customJobTitle := customJobTitle st;
            resumeText := resumeText st;
            resumeFileName := resumeFileName st;
            rankingResult := rankingResult st; isLoading := false;
            isParsing := isParsing st; error := Some msgParseFailure |}
     end, Normal tt).
Proof.
  unfold_handler. now destruct (JSON_parse (stripFence (trim raw))).
Qed.

(** A response without a text, or a rejection: the outer [catch]. *)
Lemma handleRankResume_resume_failed (JSON_parse : jsstring -> option json)
    (o : ServiceOutcome) (st : State) :
  o = Responded None \/ (exists e, o = ServiceRejected e) ->
  handleRankResume_resume JSON_parse o st =
    ({| selectedJob := selectedJob st; customJobTitle := customJobTitle st;
        resumeText := resumeText st; resumeFileName := resumeFileName st;
        rankingResult := rankingResult st; isLoading := false;
        isParsing := isParsing st; error := Some msgServiceFailure |},
     Normal tt).
Proof. intros [-> | [e ->]]; reflexivity. Qed.

(** However the request settles, the handler ends normally and leaves the
    resume fields and the parsing flag alone. *)
Lemma handleRankResume_resume_frame (JSON_parse : jsstring -> option json)
    (o : ServiceOutcome) (st : State) :
  let r := handleRankResume_resume JSON_parse o st in
  snd r = Normal tt /\
  resumeText (fst r) = resumeText st /\
  resumeFileName (fst r) = resumeFileName st /\
  isParsing (fst r) = isParsing st /\
  isLoading (fst r) = false.
Proof.
  destruct o as [[raw|]|e]; cbv zeta.
  - rewrite handleRankResume_resume_text.
    destruct (JSON_parse _); simpl; auto.
  - rewrite handleRankResume_resume_failed by auto. simpl; auto.
  - rewrite handleRankResume_resume_failed by eauto. simpl; auto.
Qed.

(** C6: when the response text, trimmed and stripped of its fence, is not
    accepted by [JSON.parse], the handler ends normally, no exception
    leaving it, with the parse-failure message stored, the loading flag
    down and the result cell untouched; the cell was emptied when the
    trigger issued the request, so no result is set. *)
Theorem C6_non_json_parse_failure (JSON_parse : jsstring -> option json)
    (raw : jsstring) (st : State) :
  JSON_parse (stripFence (trim raw)) = None ->
  handleRankResume_resume JSON_parse (Responded (Some raw)) st =
    ({| selectedJob := selectedJob st; customJobTitle := customJobTitle st;
        resumeText := resumeText st; resumeFileName := resumeFileName st;
        rankingResult := rankingResult st; isLoading := false;
        isParsing := isParsing st; error := Some msgParseFailure |},
     Normal tt) /\
  (forall st0 req,
     handleRankResume st0 = (st, Normal req) ->
     rankingResult
       (fst (handleRankResume_resume JSON_parse (Responded (Some raw)) st))
       = None).
Proof.
  intros H. rewrite handleRankResume_resume_text, H.
  split; [reflexivity|]. intros st0 req E. simpl.
  pose proof (handleRankResume_request st0 st req E) as (_ & _ & J & T).
  rewrite (handleRankResume_started st0 J T) in E.
  inversion E; subst; reflexivity.
Qed.

Lemma C6_non_json_parse_failure_witness :
  JSONText.parse (stripFence (trim (lit "Sorry, I cannot help."))) = None /\
  error (fst (handleRankResume_resume JSONText.parse
                (Responded (Some (lit "Sorry, I cannot help.")))
                analyzingState))
    = Some msgParseFailure.
Proof.
  assert (H : JSONText.parse
                (stripFence (trim (lit "Sorry, I cannot help."))) = None)
    by (vm_compute; reflexivity).
  split; [exact H|].
  rewrite (proj1 (C6_non_json_parse_failure JSONText.parse
                    (lit "Sorry, I cannot help.") analyzingState H)).
  reflexivity.
Defined.

(* ================================================================== *)
(** ** The closing fence is not looked at *)

Lemma substring_inner (t : jsstring) (i : nat) :
  (i + 3 <= List.length t)%nat ->
  substring t (Z.of_nat i) (length t - 3)
    = skipn i (firstn (List.length t - 3) t).
Proof.
  intros H. unfold substring, clamp, length.
  replace (Z.min (Z.max (Z.of_nat i) 0) (Z.of_nat (List.length t)))
    with (Z.of_nat i) by lia.
  replace (Z.min (Z.max (Z.of_nat (List.length t) - 3) 0)
                 (Z.of_nat (List.length t)))
    with (Z.of_nat (List.length t) - 3) by lia.
  replace (Z.min (Z.of_nat i) (Z.of_nat (List.length t) - 3))
    with (Z.of_nat i) by lia.
  replace (Z.max (Z.of_nat i) (Z.of_nat (List.length t) - 3) - Z.of_nat i)
    with (Z.of_nat (List.length t - 3 - i)) by lia.
  rewrite !Nat2Z.id. now rewrite skipn_firstn_comm.
Qed.

(** C10, as the code has it: a trimmed text that starts with the tagged
    marker and has at least the ten code units of a marker and a closing
    fence loses its first seven and its last three code units, whatever
    those last three are; a text that starts with the untagged marker only
    and has at least six code units loses its first three and its last
    three.  Hence a response that opens a fence and never closes it loses
    the last three code units of its body: a body the reader accepts is
    cut down to a text it refuses. *)
Theorem C10_closing_fence_unchecked (t : jsstring) :
  (startsWith t fenceJson = true -> 10 <= length t ->
   stripFence t = withoutFence 7 t) /\
  (startsWith t fenceJson = false -> startsWith t fence = true ->
   6 <= length t -> stripFence t = withoutFence 3 t) /\
  (exists body v,
     JSONText.parse body = Some v /\
     trim (unclosed body) = unclosed body /\
     stripFence (unclosed body) = firstn (List.length body - 3) body /\
     JSONText.parse (stripFence (unclosed body)) = None).
Proof.
  split; [|split].
  - intros J L. unfold stripFence, withoutFence. rewrite J.
    assert (E : (7 + 3 <= List.length t)%nat) by (unfold length in L; lia).
    apply substring_inner in E. change (Z.of_nat 7) with 7 in E.
    now rewrite E.
  - intros J F L. unfold stripFence, withoutFence. rewrite J, F.
    assert (E : (3 + 3 <= List.length t)%nat) by (unfold length in L; lia).
    apply substring_inner in E. change (Z.of_nat 3) with 3 in E.
    now rewrite E.
  - exists sampleBody, sampleResult. repeat split; vm_compute; reflexivity.
Qed.

Lemma C10_closing_fence_unchecked_witness :
  stripFence (unclosed sampleBody)
    = lit "{" ++ quoted "overallScore" ++ lit ":".
Proof.
  rewrite (proj1 (C10_closing_fence_unchecked (unclosed sampleBody)));
    [vm_compute; reflexivity | vm_compute; reflexivity
    | vm_compute; discriminate].
Defined.

(** C10 as stated fails for the shortest texts: on the text that is the
    tagged marker and nothing else, [substring] is called with 7 and 4
    and swaps them, and what comes out is the last three code units of
    the text, not the text without them. *)
Lemma C10_marker_alone_keeps_last_three :
  startsWith (lit "```json") fenceJson = true /\
  stripFence (lit "```json") = lit "son" /\
  withoutFence 7 (lit "```json") = [] /\
  stripFence (lit "```json") <> withoutFence 7 (lit "```json").
Proof.
  repeat split; try (vm_compute; reflexivity).
  vm_compute; discriminate.
Qed.

(** The same with the untagged marker alone: the text comes out whole. *)
Lemma stripFence_marker_alone : stripFence (lit "```") = lit "```".
Proof. reflexivity. Qed.

(* ================================================================== *)
(** ** The resume pair along a session *)

Lemma validPair_cases (st : State) :
  validPair st = true <->
  (resumeFileName st = [] /\ resumeText st = []) \/
  (resumeFileName st <> [] /\ resumeText st <> []).
Proof.
  unfold validPair.
  destruct (resumeFileName st), (resumeText st); simpl; split;
    try discriminate; try (intros _; auto; right; split; discriminate).
  - intros [[_ H] | [H _]]; [discriminate | congruence].
  - intros [[H _] | [_ H]]; [discriminate | congruence].
Qed.

(** The trigger, before its [await], leaves the resume fields and the
    parsing flag alone. *)
Lemma handleRankResume_frame (st : State) :
  let r := handleRankResume st in
  resumeText (fst r) = resumeText st /\
  resumeFileName (fst r) = resumeFileName st /\
  isParsing (fst r) = isParsing st.
Proof.
  unfold_handler.
  destruct (falsy (jobToRank st) || falsy (resumeText st)); simpl; auto.
Qed.

(** [resumeInv] reads three cells and the number of parses in flight. *)
Lemma resumeInv_frame (s s' : Sys) :
  parsesInFlight s' = parsesInFlight s ->
  resumeText (ui s') = resumeText (ui s) ->
  resumeFileName (ui s') = resumeFileName (ui s) ->
  isParsing (ui s') = isParsing (ui s) ->
  resumeInv s -> resumeInv s'.
Proof.
  unfold resumeInv, validPair. intros -> -> -> ->. exact (fun H => H).
Qed.

Lemma step_resumeInv (JSON_parse : jsstring -> option json)
    (s s' : Sys) (ev : Event) :
  resumeInv s -> oneParseAtATime s ev = true ->
  step JSON_parse s ev = Some s' -> resumeInv s'.
Proof.
  intros I A E. destruct ev as [title|text|[f|]|o| |o]; unfold step in E.
  - destruct (existsb _ _); [|discriminate]. inversion E; subst.
    exact I.
  - destruct (eqb _ _); [|discriminate]. inversion E; subst. exact I.
  - simpl in A. apply andb_true_iff in A. destruct A as [P F].
    apply Nat.eqb_eq in P. apply negb_true_iff, falsy_false in F.
    unfold resumeInv in I. rewrite P in I. destruct I as [_ Q].
    destruct (eqb (file_type f) pdfType) eqn:T.
    + apply eqb_eq in T. rewrite (handleFileChange_pdf f _ T) in E.
      inversion E; subst. unfold resumeInv; simpl. rewrite P. auto.
    + apply eqb_neq in T. rewrite (handleFileChange_non_pdf f _ T) in E.
      inversion E; subst. unfold resumeInv; simpl. rewrite P. auto.
  - inversion E; subst. exact I.
  - unfold resumeInv in I.
    destruct (parsesInFlight s) as [|[|n]] eqn:P;
      [discriminate | | contradiction].
    destruct I as (T & F & _). inversion E; subst; clear E.
    unfold resumeInv; simpl.
    destruct o as [pages|e].
    + destruct (Z.ltb_spec (length (trim (extractText pages))) 50) as [L|L].
      * rewrite (handleFileChange_resume_short pages _ L). simpl. auto.
      * rewrite (handleFileChange_resume_long pages _ L). simpl.
        split; [|reflexivity]. apply validPair_cases. right. simpl.
        split; [exact F|]. apply trim_nonempty. lia.
    + rewrite handleFileChange_resume_rejected. simpl. auto.
  - destruct (disabled (ui s)); [inversion E; subst; exact I|].
    pose proof (handleRankResume_frame (ui s)) as (F1 & F2 & F3).
    destruct (handleRankResume (ui s)) as [st' [req| |e]];
      inversion E; subst; simpl in *;
      now apply (resumeInv_frame s).
  - destruct (analysesInFlight s) as [|n]; [discriminate|].
    inversion E; subst; clear E.
    pose proof (handleRankResume_resume_frame JSON_parse o (ui s))
      as (_ & F1 & F2 & F3 & _).
    now apply (resumeInv_frame s).
Qed.

Lemma run_resumeInv (JSON_parse : jsstring -> option json)
    (evs : list Event) (s s' : Sys) :
  resumeInv s -> run JSON_parse oneParseAtATime evs s = Some s' ->
  resumeInv s'.
Proof.
  revert s. induction evs as [|ev evs IH]; intros s I; simpl.
  - intros E. inversion E; subst. exact I.
  - destruct (oneParseAtATime s ev) eqn:A; [|discriminate].
    destruct (step JSON_parse s ev) as [s1|] eqn:S1; [|discriminate].
    apply IH. exact (step_resumeInv JSON_parse s s1 ev I A S1).
Qed.

(** The name stored during a parse is the name of the file chosen
    last. *)
Lemma step_selectedInv (JSON_parse : jsstring -> option json)
    (s s' : Sys) (ev : Event) (sel : option File) :
  resumeInv s -> selectedInv s sel -> oneParseAtATime s ev = true ->
  step JSON_parse s ev = Some s' ->
  selectedInv s' (selectedAfter sel [ev]).
Proof.
  intros I K A E. unfold selectedInv in *.
  destruct ev as [title|text|[f|]|o| |o]; unfold step in E;
    cbn [selectedAfter fold_left].
  - destruct (existsb _ _); [|discriminate]. inversion E; subst. exact K.
  - destruct (eqb _ _); [|discriminate]. inversion E; subst. exact K.
  - simpl in A. apply andb_true_iff in A. destruct A as [P _].
    apply Nat.eqb_eq in P.
    destruct (eqb (file_type f) pdfType) eqn:T.
    + apply eqb_eq in T. rewrite (handleFileChange_pdf f _ T) in E.
      inversion E; subst; simpl. intros _. exists f. auto.
    + apply eqb_neq in T. rewrite (handleFileChange_non_pdf f _ T) in E.
      inversion E; subst; simpl. rewrite P. discriminate.
  - inversion E; subst. exact K.
  - unfold resumeInv in I.
    destruct (parsesInFlight s) as [|[|n]] eqn:P;
      [discriminate | | contradiction].
    inversion E; subst; simpl. discriminate.
  - destruct (disabled (ui s)); [inversion E; subst; exact K|].
    pose proof (handleRankResume_frame (ui s)) as (_ & F2 & _).
    destruct (handleRankResume (ui s)) as [st' [req| |e]];
      inversion E; subst; simpl in *; now rewrite F2.
  - destruct (analysesInFlight s) as [|n]; [discriminate|].
    inversion E; subst; simpl.
    pose proof (handleRankResume_resume_frame JSON_parse o (ui s))
      as (_ & _ & F2 & _).
    cbv zeta in F2. now rewrite F2.
Qed.

Lemma run_selectedInv (JSON_parse : jsstring -> option json)
    (evs : list Event) (s s' : Sys) (sel : option File) :
  resumeInv s -> selectedInv s sel ->
  run JSON_parse oneParseAtATime evs s = Some s' ->
  selectedInv s' (selectedAfter sel evs).
Proof.
  revert s sel. induction evs as [|ev evs IH]; intros s sel I K; simpl.
  - intros E. inversion E; subst. exact K.
  - destruct (oneParseAtATime s ev) eqn:A; [|discriminate].
    destruct (step JSON_parse s ev) as [s1|] eqn:S1; [|discriminate].
    intros E.
    change (selectedAfter sel (ev :: evs))
      with (selectedAfter (selectedAfter sel [ev]) evs).
    apply (IH s1).
    + exact (step_resumeInv JSON_parse s s1 ev I A S1).
    + exact (step_selectedInv JSON_parse s s1 ev sel I K A S1).
    + exact E.
Qed.

(** C1, as the code has it: along every run from the empty page in which
    a file is chosen only while no parse is in flight, and every chosen
    file has a name, the two resume fields are both empty or both
    non-empty whenever no parse is in flight; while a parse is in flight
    it is the only one, the file name is the name of the file chosen
    last, a PDF, and the text is empty. *)
Theorem C1_resume_pair_between_parses
    (JSON_parse : jsstring -> option json) (evs : list Event) (s : Sys) :
  run JSON_parse oneParseAtATime evs initialSys = Some s ->
  (parsesInFlight s = 0%nat ->
   (resumeFileName (ui s) = [] /\ resumeText (ui s) = []) \/
   (resumeFileName (ui s) <> [] /\ resumeText (ui s) <> [])) /\
  (parsesInFlight s <> 0%nat ->
   parsesInFlight s = 1%nat /\
   (exists f, lastSelected evs = Some f /\ file_type f = pdfType /\
              resumeFileName (ui s) = file_name f) /\
   resumeFileName (ui s) <> [] /\
   resumeText (ui s) = [] /\ isParsing (ui s) = true).
Proof.
  intros E.
  assert (I0 : resumeInv initialSys) by (split; reflexivity).
  assert (K0 : selectedInv initialSys None) by (intros H; discriminate H).
  pose proof (run_resumeInv JSON_parse evs initialSys s I0 E) as I.
  pose proof (run_selectedInv JSON_parse evs initialSys s None I0 K0 E)
    as K.
  unfold resumeInv in I. unfold selectedInv in K. fold (lastSelected evs) in K.
  destruct (parsesInFlight s) as [|[|n]]; [| |contradiction].
  - split; [|congruence]. intros _. apply validPair_cases. tauto.
  - split; [discriminate|]. intros _.
    split; [reflexivity|]. split; [exact (K eq_refl) | tauto].
Qed.

Lemma C1_resume_pair_between_parses_witness :
  (run JSONText.parse oneParseAtATime toResult initialSys
     = Some (settled resultState) /\
   ((resumeFileName resultState = [] /\ resumeText resultState = []) \/
    (resumeFileName resultState <> [] /\ resumeText resultState <> []))) /\
  (exists s,
     run JSONText.parse oneParseAtATime [SelectFile (Some cvPdf)] initialSys
       = Some s /\
     resumeFileName (ui s) = file_name cvPdf /\ resumeText (ui s) = []).
Proof.
  assert (E : run JSONText.parse oneParseAtATime toResult initialSys
              = Some (settled resultState)) by (vm_compute; reflexivity).
  split.
  - split; [exact E|].
    exact (proj1 (C1_resume_pair_between_parses JSONText.parse toResult
                    (settled resultState) E) eq_refl).
  - eexists. split; [vm_compute; reflexivity|].
    match goal with
    | |- resumeFileName (ui ?s0) = _ /\ _ =>
        destruct (proj2 (C1_resume_pair_between_parses JSONText.parse
                           [SelectFile (Some cvPdf)] s0 eq_refl))
          as (_ & (f & L & _ & N) & _ & T & _);
          [discriminate|]
    end.
    inversion L; subst f. split; [exact N | exact T].
Defined.

(** C1 as stated fails while a file is being parsed: right after a PDF
    is chosen on the empty page, the file name is set and the text is
    empty. *)
Lemma C1_name_without_text_while_parsing :
  exists s,
    run JSONText.parse oneParseAtATime [SelectFile (Some cvPdf)] initialSys
      = Some s /\
    parsesInFlight s = 1%nat /\
    resumeFileName (ui s) = lit "cv.pdf" /\
    resumeText (ui s) = [] /\
    validPair (ui s) = false.
Proof.
  eexists. split; [vm_compute; reflexivity|].
  repeat split.
Qed.

(** Why the runs are restricted.  The file input stays enabled during a
    parse: a file that is not a PDF chosen then empties the name, and the
    parse that completes afterwards stores its text next to it. *)
Lemma overlapping_selection_splits_pair :
  exists s,
    run JSONText.parse anyEvent
        [ SelectFile (Some cvPdf); SelectFile (Some notesTxt);
          PdfSettled (PdfRead (letters 200)) ] initialSys = Some s /\
    parsesInFlight s = 0%nat /\
    resumeFileName (ui s) = [] /\
    resumeText (ui s) = extractText (letters 200) /\
    validPair (ui s) = false.
Proof.
  eexists. split; [vm_compute; reflexivity|].
  repeat split.
Qed.

(** A file whose name is empty leaves a text without a name. *)
Lemma unnamed_file_splits_pair :
  exists s,
    run JSONText.parse anyEvent
        [ SelectFile (Some unnamedPdf);
          PdfSettled (PdfRead (letters 200)) ] initialSys = Some s /\
    parsesInFlight s = 0%nat /\
    validPair (ui s) = false.
Proof.
  eexists. split; [vm_compute; reflexivity|].
  repeat split.
Qed.

(** The scenario of the specification: a title, a 200-letter resume, a
    well-formed response; the result is stored and the score of 90 is
    banded high. *)
Lemma scenario_result_ready :
  run JSONText.parse anyEvent toResult initialSys
    = Some (settled resultState) /\
  getScoreColor (Num.ofZ 90) = lit "high-score".
Proof. split; vm_compute; reflexivity. Qed.

(** After that scenario, a file that is not a PDF leaves the result of
    the analysis on the page next to its message. *)
Lemma stale_result_after_non_pdf :
  exists s,
    run JSONText.parse anyEvent (toResult ++ [SelectFile (Some notesTxt)])
        initialSys = Some s /\
    rankingResult (ui s) = Some sampleResult /\
    error (ui s) = Some msgUnsupportedFormat /\
    resumeFileName (ui s) = [] /\ resumeText (ui s) = [].
Proof.
  eexists. split; [vm_compute; reflexivity|].
  repeat split.
Qed.

(** The second half of [handleFileChange] lets no exception out either,
    and always ends with the parsing flag down. *)
Lemma handleFileChange_resume_caught (o : PdfOutcome) (st : State) :
  let r := handleFileChange_resume o st in
  (snd r = Normal tt \/ snd r = Returned) /\ isParsing (fst r) = false.
Proof.
  destruct o as [pages|e]; cbv zeta.
  - destruct (Z.ltb_spec (length (trim (extractText pages))) 50) as [L|L].
    + rewrite (handleFileChange_resume_short pages st L). simpl. auto.
    + rewrite (handleFileChange_resume_long pages st L). simpl. auto.
  - rewrite handleFileChange_resume_rejected. simpl. auto.
Qed.

(* ================================================================== *)
(** ** More on [trim] and [substring] *)

Lemma trimStart_idem (s : jsstring) : trimStart (trimStart s) = trimStart s.
Proof.
  induction s as [|c s IH]; simpl; [reflexivity|].
  destruct (isWhiteSpace c) eqn:W; [exact IH|]. simpl. now rewrite W.
Qed.

Lemma trimEnd_idem (s : jsstring) : trimEnd (trimEnd s) = trimEnd s.
Proof.
  unfold trimEnd. now rewrite rev_involutive, trimStart_idem.
Qed.

Lemma trimStart_head (s : jsstring) :
  trimStart s = [] \/
  exists c r, trimStart s = c :: r /\ isWhiteSpace c = false.
Proof.
  induction s as [|c s IH]; simpl; [now left|].
  destruct (isWhiteSpace c) eqn:W; [exact IH|]. right. eauto.
Qed.

Lemma trim_idem (s : jsstring) : trim (trim s) = trim s.
Proof.
  unfold trim.
  destruct (trimStart_head s) as [E | (c & r & E & W)]; rewrite E.
  - reflexivity.
  - destruct (trimEnd_cons_nonws c r W) as [s' E'].
    rewrite E', (trimStart_nonws c s' W), <- E'. apply trimEnd_idem.
Qed.

Lemma trimStart_length (s : jsstring) :
  (List.length (trimStart s) <= List.length s)%nat.
Proof.
  induction s as [|c s IH]; simpl; [lia|].
  destruct (isWhiteSpace c); simpl; lia.
Qed.

Lemma trim_length (s : jsstring) : length (trim s) <= length s.
Proof.
  unfold trim, trimEnd, length. rewrite length_rev.
  pose proof (trimStart_length (rev (trimStart s))) as H1.
  rewrite length_rev in H1.
  pose proof (trimStart_length s). lia.
Qed.

Lemma substring_length (s : jsstring) (a b : Z) :
  length (substring s a b) <= length s.
Proof.
  unfold substring, length. rewrite length_firstn, length_skipn. lia.
Qed.

Lemma trimStart_blank (s : jsstring) : blank s = true -> trimStart s = [].
Proof.
  unfold blank. induction s as [|c s IH]; simpl; [reflexivity|].
  rewrite andb_true_iff. intros [W H]. rewrite W. auto.
Qed.

Lemma trim_blank (s : jsstring) : blank s = true -> trim s = [].
Proof. intros H. unfold trim. now rewrite (trimStart_blank s H). Qed.

Lemma blank_app (a b : jsstring) : blank (a ++ b) = blank a && blank b.
Proof. unfold blank. apply forallb_app. Qed.

Lemma blank_join (items : Page) :
  forallb blank items = true -> blank (join [SP] items) = true.
Proof.
  induction items as [|p rest IH]; [reflexivity|].
  cbn [forallb]. rewrite andb_true_iff. intros [P R].
  destruct rest as [|q rest]; [exact P|].
  change (join [SP] (p :: q :: rest))
    with (p ++ [SP] ++ join [SP] (q :: rest)).
  rewrite !blank_app, P, (IH R). reflexivity.
Qed.

(* ================================================================== *)
(** ** The text of a document *)

Lemma extractText_from (acc : jsstring) (pages : list Page) :
  fold_left (fun fullText items => fullText ++ join [SP] items ++ [LF])
            pages acc
  = acc ++ List.concat (map (fun items => join [SP] items ++ [LF]) pages).
Proof.
  revert acc. induction pages as [|p pages IH]; intros acc; simpl.
  - now rewrite app_nil_r.
  - rewrite IH. now rewrite <- !app_assoc.
Qed.

Lemma extractText_concat (pages : list Page) :
  extractText pages
  = List.concat (map (fun items => join [SP] items ++ [LF]) pages).
Proof. unfold extractText. now rewrite extractText_from. Qed.

Lemma extractText_blank (pages : list Page) :
  forallb (forallb blank) pages = true -> blank (extractText pages) = true.
Proof.
  rewrite extractText_concat.
  induction pages as [|p pages IH]; [reflexivity|].
  cbn [forallb map List.concat]. rewrite andb_true_iff. intros [P R].
  rewrite !blank_app, (blank_join p P), (IH R). reflexivity.
Qed.

(** X1: the text of a document is the text of its pages one after the
    other, in page order, each page being its items joined by one space
    and closed by a line feed.  So the text of two runs of pages put
    together is the two texts put together, and the text has at least one
    code unit for every page. *)
Theorem X1_extractText_page_order (ps qs : list Page) :
  extractText ps
    = List.concat (map (fun items => join [SP] items ++ [LF]) ps) /\
  extractText (ps ++ qs) = extractText ps ++ extractText qs /\
  Z.of_nat (List.length ps) <= length (extractText ps).
Proof.
  split; [apply extractText_concat|]. split.
  - rewrite !extractText_concat. now rewrite map_app, concat_app.
  - rewrite extractText_concat. unfold length.
    apply inj_le. induction ps as [|p ps IH]; simpl; [lia|].
    rewrite !List.length_app. simpl. lia.
Qed.

(** X2: a document that was read but holds nothing except white space,
    be it a document without pages, pages without items or items of
    blanks only, is refused as having no readable text, and both resume
    fields are emptied. *)
Theorem X2_blank_document_refused (pages : list Page) (st : State) :
  forallb (forallb blank) pages = true ->
  let st' := fst (handleFileChange_resume (PdfRead pages) st) in
  trim (extractText pages) = [] /\
  error st' = Some msgNoReadableText /\
  resumeFileName st' = [] /\ resumeText st' = [] /\
  isParsing st' = false.
Proof.
  intros H st'. subst st'.
  pose proof (trim_blank _ (extractText_blank pages H)) as E.
  split; [exact E|].
  rewrite handleFileChange_resume_short by (rewrite E; reflexivity).
  simpl. auto.
Qed.

Lemma X2_blank_document_refused_witness :
  error (fst (handleFileChange_resume
                (PdfRead [[]; [[SP; SP]; [9%N]]; []]) readyState))
    = Some msgNoReadableText.
Proof.
  apply (X2_blank_document_refused [[]; [[SP; SP]; [9%N]]; []] readyState).
  reflexivity.
Defined.

(* ================================================================== *)
(** ** Unwrapping a fenced response *)

Lemma trim_fenced (p b : jsstring) :
  trim ((96%N :: p) ++ b ++ fence) = (96%N :: p) ++ b ++ fence.
Proof.
  replace ((96%N :: p) ++ b ++ fence)
    with (96%N :: (p ++ b ++ lit "``") ++ [96%N]).
  - now apply trim_fixed.
  - simpl. rewrite <- !app_assoc. reflexivity.
Qed.

Lemma startsWith_json_before_fence (b : jsstring) :
  startsWith (b ++ fence) (lit "json") = startsWith b (lit "json").
Proof.
  destruct b as [|c1 [|c2 [|c3 [|c4 r]]]]; cbn -[N.eqb];
    rewrite ?andb_false_r; reflexivity.
Qed.

(** X12: wrapping a body in a fence and unwrapping it gives the body
    trimmed, whatever the body is: with the tagged marker, with or without
    line feeds inside the fence, and with the untagged marker as long as
    the body does not itself begin with the letters of the tag.  A body
    that begins with them inside an untagged fence is read as tagged and
    loses them. *)
Theorem X12_fence_round_trip (b : jsstring) :
  stripFence (trim (fencedJson b)) = trim b /\
  stripFence (trim (fencedPlain b)) = trim b /\
  stripFence (trim (fenceJson ++ b ++ fence)) = trim b /\
  (startsWith b (lit "json") = false ->
   stripFence (trim (fence ++ b ++ fence)) = trim b) /\
  (forall b', b = lit "json" ++ b' ->
   stripFence (trim (fence ++ b ++ fence)) = trim b').
Proof.
  assert (T : forall x, stripFence (trim (fenceJson ++ x ++ fence)) = trim x).
  { intros x. change fenceJson with (96%N :: lit "``json").
    rewrite trim_fenced. change (96%N :: lit "``json") with fenceJson.
    unfold stripFence. rewrite startsWith_app.
    now rewrite substring_middle by reflexivity. }
  split; [now rewrite trim_fencedJson, stripFence_fencedJson|].
  split; [now rewrite trim_fencedPlain, stripFence_fencedPlain|].
  split; [apply T|]. split.
  - intros H. change fence with (96%N :: lit "``") at 1.
    rewrite trim_fenced. change (96%N :: lit "``") with fence.
    unfold stripFence.
    assert (J : startsWith (fence ++ b ++ fence) fenceJson = false).
    { change (startsWith (fence ++ b ++ fence) fenceJson)
        with (startsWith (b ++ fence) (lit "json")).
      now rewrite startsWith_json_before_fence. }
    rewrite J, startsWith_app.
    now rewrite substring_middle by reflexivity.
  - intros b' ->.
    replace (fence ++ (lit "json" ++ b') ++ fence)
      with (fenceJson ++ b' ++ fence) by reflexivity.
    apply T.
Qed.

Lemma X12_fence_round_trip_witness :
  stripFence (trim (fence ++ sampleBody ++ fence)) = sampleBody /\
  stripFence (trim (fence ++ lit "json5" ++ fence)) = lit "5".
Proof.
  destruct (X12_fence_round_trip sampleBody) as (_ & _ & _ & H & _).
  destruct (X12_fence_round_trip (lit "json5")) as (_ & _ & _ & _ & K).
  split.
  - rewrite H; reflexivity.
  - rewrite (K (lit "5")); reflexivity.
Defined.

(** X13: the text handed to [JSON.parse] never begins or ends with white
    space, and is never longer than the response it comes from. *)
Theorem X13_parsed_text_is_trimmed (raw : jsstring) :
  trim (stripFence (trim raw)) = stripFence (trim raw) /\
  length (stripFence (trim raw)) <= length raw.
Proof.
  pose proof (trim_length raw) as L.
  unfold stripFence.
  destruct (startsWith (trim raw) fenceJson);
    [|destruct (startsWith (trim raw) fence)].
  - split; [apply trim_idem|].
    pose proof (trim_length (substring (trim raw) 7 (length (trim raw) - 3))).
    pose proof (substring_length (trim raw) 7 (length (trim raw) - 3)).
    lia.
  - split; [apply trim_idem|].
    pose proof (trim_length (substring (trim raw) 3 (length (trim raw) - 3))).
    pose proof (substring_length (trim raw) 3 (length (trim raw) - 3)).
    lia.
  - split; [apply trim_idem | exact L].
Qed.

(* ================================================================== *)
(** ** The bands of a score *)

(** The order of doubles is transitive from a positive finite double
    upwards. *)
Lemma SFleb_trans_const (mc : positive) (ec : Z) (a b : Num.number) :
  SFleb (S754_finite false mc ec) a = true -> SFleb a b = true ->
  SFleb (S754_finite false mc ec) b = true.
Proof.
  unfold SFleb.
  destruct a as [sa|sa| |sa ma ea], b as [sb|sb| |sb mb eb];
    cbn [SFcompare];
    try destruct sa; try destruct sb; try discriminate; try reflexivity.
  change (Pos.compare_cont Eq mc ma) with (Pos.compare mc ma).
  change (Pos.compare_cont Eq ma mb) with (Pos.compare ma mb).
  change (Pos.compare_cont Eq mc mb) with (Pos.compare mc mb).
  destruct (Z.compare_spec ec ea), (Z.compare_spec ea eb),
           (Z.compare_spec ec eb);
    try discriminate; try reflexivity; try lia;
    destruct (Pos.compare_spec mc ma), (Pos.compare_spec ma mb),
             (Pos.compare_spec mc mb);
    try discriminate; try reflexivity; try lia.
Qed.

Lemma ge_mono (t : Z) (a b : Num.number) :
  t = 85 \/ t = 60 ->
  Num.ge a (Num.ofZ t) = true -> Num.le a b = true ->
  Num.ge b (Num.ofZ t) = true.
Proof.
  unfold Num.ge, Num.le. intros [-> | ->].
  - change (Num.ofZ 85) with (S754_finite false 5981343255101440 (-46)).
    apply SFleb_trans_const.
  - change (Num.ofZ 60) with (S754_finite false 8444249301319680 (-47)).
    apply SFleb_trans_const.
Qed.

(** X14: on doubles, a higher score never gets a lower band: when
    [s <= s'] holds, the band of [s'] is not below the band of [s].  For
    the card of a breakdown item whose score is an integer from 0 to 10,
    the band is high for 9 and 10, medium from 6 to 8, and low up to 5. *)
Theorem X14_score_bands_ordered (s s' : Num.number) :
  (Num.le s s' = true ->
   bandRank (getScoreColor s) <= bandRank (getScoreColor s')) /\
  (forall (n : Z) (item : RankingBreakdown),
     0 <= n <= 10 -> score item = Num.ofZ n ->
     breakdownScoreColor item
     = if 9 <=? n then lit "high-score"
       else if 6 <=? n then lit "medium-score"
       else lit "low-score").
Proof.
  split.
  - intros L. unfold getScoreColor.
    pose proof (ge_mono 85 s s' (or_introl eq_refl)) as M85.
    pose proof (ge_mono 60 s s' (or_intror eq_refl)) as M60.
    destruct (Num.ge s (Num.ofZ 85)) eqn:A.
    + rewrite (M85 eq_refl L). reflexivity.
    + destruct (Num.ge s (Num.ofZ 60)) eqn:B.
      * rewrite (M60 eq_refl L).
        destruct (Num.ge s' (Num.ofZ 85)); vm_compute; discriminate.
      * destruct (Num.ge s' (Num.ofZ 85));
          [|destruct (Num.ge s' (Num.ofZ 60))]; vm_compute; discriminate.
  - intros n item R E. unfold breakdownScoreColor. rewrite E.
    assert (K : (Z.to_nat n <= 10)%nat) by lia.
    rewrite <- (Z2Nat.id n) by lia.
    generalize dependent (Z.to_nat n). clear. intros k K.
    do 11 (destruct k as [|k]; [reflexivity|]). lia.
Qed.

Lemma X14_score_bands_ordered_witness :
  bandRank (getScoreColor d8_45) <= bandRank (getScoreColor d84_5) /\
  breakdownScoreColor {| criterion := []; score := Num.ofZ 8;
                         feedback := [] |} = lit "medium-score".
Proof.
  destruct (X14_score_bands_ordered d8_45 d84_5) as (M & T).
  split; [apply M; reflexivity|].
  apply (T 8); [lia | reflexivity].
Defined.

(* ================================================================== *)
(** ** The button and the trigger *)

Lemma disabled_spec (st : State) :
  disabled st
  = isLoading st || isParsing st || falsy (resumeText st)
    || falsy (jobToRank st).
Proof.
  unfold disabled, jobToRank.
  destruct (eqb (selectedJob st) (lit "Other")) eqn:E.
  - apply eqb_eq in E. rewrite E. simpl. now rewrite orb_false_r.
  - simpl. now rewrite orb_false_r.
Qed.

Lemma enabled_started (st : State) :
  disabled st = false ->
  isLoading st = false /\ isParsing st = false /\
  handleRankResume st =
    ({| selectedJob := selectedJob st; customJobTitle := customJobTitle st;
        resumeText := resumeText st; resumeFileName := resumeFileName st;
        rankingResult := None; isLoading := true;
        isParsing := isParsing st; error := None |},
     Normal {| req_jobToRank := jobToRank st;
               req_resumeText := resumeText st |}).
Proof.
  rewrite disabled_spec, !orb_false_iff. intros [[[L P] T] J].
  split; [exact L|]. split; [exact P|].
  apply handleRankResume_started; now apply falsy_false.
Qed.

(** X6: the button is enabled exactly when neither flag is up and the
    handler's own two conditions hold, a non-empty effective job title
    and a non-empty resume text.  So a click that reaches the handler
    always issues the request, for the effective job title and the stored
    text, and never takes the validation branch. *)
Theorem X6_enabled_click_issues_request (st : State) :
  (disabled st = false <->
   isLoading st = false /\ isParsing st = false /\
   resumeText st <> [] /\ jobToRank st <> []) /\
  (disabled st = false ->
   snd (handleRankResume st)
     = Normal {| req_jobToRank := jobToRank st;
                 req_resumeText := resumeText st |} /\
   error (fst (handleRankResume st)) = None /\
   isLoading (fst (handleRankResume st)) = true /\
   rankingResult (fst (handleRankResume st)) = None).
Proof.
  split.
  - rewrite disabled_spec, !orb_false_iff, !falsy_false. tauto.
  - intros H. destruct (enabled_started st H) as (_ & _ & E).
    rewrite E. simpl. auto.
Qed.

Lemma X6_enabled_click_issues_request_witness :
  snd (handleRankResume otherState)
    = Normal {| req_jobToRank := lit " ML ";
                req_resumeText := extractText (letters 200) |}.
Proof.
  apply (proj2 (X6_enabled_click_issues_request otherState)).
  reflexivity.
Defined.

(* ================================================================== *)
(** ** An upload and an analysis from start to end *)

(** X4: choosing a PDF and letting its reads settle ends in one of two
    ways, whatever the state before and however the reads settle.  Either
    every page was read and the trimmed text has 50 code units or more:
    then the text and the name of the file are stored and no message is
    left.  Or both resume fields are empty and the message of the failure
    is stored: no readable text, password protected, or corrupt.  In both
    cases no exception leaves the handler, the parsing flag is down, the
    earlier result is gone and the job selection is as it was. *)
Theorem X4_upload_outcome (f : File) (o : PdfOutcome) (st : State) :
  file_type f = pdfType ->
  let st1 := fst (handleFileChange (Some f) st) in
  let r := handleFileChange_resume o st1 in
  (snd r = Normal tt \/ snd r = Returned) /\
  isParsing (fst r) = false /\
  rankingResult (fst r) = None /\
  ((exists pages,
      o = PdfRead pages /\ 50 <= length (trim (extractText pages)) /\
      resumeText (fst r) = extractText pages /\
      resumeFileName (fst r) = file_name f /\
      error (fst r) = None) \/
   (resumeText (fst r) = [] /\ resumeFileName (fst r) = [] /\
    error (fst r) = Some (extractionMessage o))) /\
  selectedJob (fst r) = selectedJob st /\
  customJobTitle (fst r) = customJobTitle st /\
  isLoading (fst r) = isLoading st.
Proof.
  intros T st1 r. subst r st1. rewrite (handleFileChange_pdf f st T).
  cbn [fst]. destruct o as [pages|e].
  - destruct (Z.ltb_spec (length (trim (extractText pages))) 50) as [L|L].
    + rewrite (handleFileChange_resume_short pages _ L). simpl.
      repeat split; auto.
    + rewrite (handleFileChange_resume_long pages _ L). simpl.
      repeat split; auto. left. exists pages. auto.
  - rewrite handleFileChange_resume_rejected. simpl.
    repeat split; auto.
Qed.

Lemma X4_upload_outcome_witness :
  error (fst (handleFileChange_resume
                (PdfRejected {| exn_name := lit "PasswordException" |})
                (fst (handleFileChange (Some cvPdf) resultState))))
    = Some msgPasswordProtected.
Proof.
  destruct (X4_upload_outcome cvPdf
              (PdfRejected {| exn_name := lit "PasswordException" |})
              resultState eq_refl)
    as (_ & _ & _ & [(pages & D & _) | (_ & _ & E)] & _).
  - discriminate D.
  - exact E.
Defined.

(** X5: a click on the enabled button and the settlement of its request
    end in one of two ways, whatever [JSON.parse] is and however the
    request settles.  Either the response has a text that parses once
    trimmed and unwrapped: then the parsed value is the result and no
    message is left.  Or there is no result and a message is stored: the
    parse failure for a text that does not parse, the service failure for
    a rejection and for a response without text.  In both cases the
    handler ends normally, the loading flag is down, and the resume and
    the job selection are as they were. *)
Theorem X5_analysis_outcome (JSON_parse : jsstring -> option json)
    (o : ServiceOutcome) (st : State) :
  disabled st = false ->
  let st1 := fst (handleRankResume st) in
  let r := handleRankResume_resume JSON_parse o st1 in
  snd r = Normal tt /\
  isLoading (fst r) = false /\
  ((exists raw v,
      o = Responded (Some raw) /\
      JSON_parse (stripFence (trim raw)) = Some v /\
      rankingResult (fst r) = Some v /\ error (fst r) = None) \/
   (rankingResult (fst r) = None /\
    error (fst r) = Some (analysisMessage o))) /\
  resumeText (fst r) = resumeText st /\
  resumeFileName (fst r) = resumeFileName st /\
  selectedJob (fst r) = selectedJob st /\
  customJobTitle (fst r) = customJobTitle st.
Proof.
  intros D st1 r. subst r st1.
  destruct (enabled_started st D) as (_ & _ & E). rewrite E. cbn [fst].
  destruct o as [[raw|]|e].
  - rewrite handleRankResume_resume_text.
    destruct (JSON_parse (stripFence (trim raw))) as [v|] eqn:P; simpl.
    + repeat split; auto. left. exists raw, v. auto.
    + repeat split; auto.
  - rewrite handleRankResume_resume_failed by auto. simpl.
    repeat split; auto.
  - rewrite handleRankResume_resume_failed by eauto. simpl.
    repeat split; auto.
Qed.

Lemma X5_analysis_outcome_witness :
  error (fst (handleRankResume_resume JSONText.parse (Responded None)
                (fst (handleRankResume readyState))))
    = Some msgServiceFailure.
Proof.
  destruct (X5_analysis_outcome JSONText.parse (Responded None)
              readyState eq_refl)
    as (_ & _ & [(raw & v & D & _) | (_ & E)] & _).
  - discriminate D.
  - exact E.
Defined.

(* ================================================================== *)
(** ** What every run keeps: proofs *)

Lemma messages_not_validation :
  msgUnsupportedFormat <> msgValidation /\
  msgNoReadableText <> msgValidation /\
  msgPasswordProtected <> msgValidation /\
  msgCorruptOrUnreadable <> msgValidation /\
  msgParseFailure <> msgValidation /\
  msgServiceFailure <> msgValidation.
Proof. repeat split; vm_compute; discriminate. Qed.

Lemma extractionMessage_not_validation (o : PdfOutcome) :
  extractionMessage o <> msgValidation.
Proof.
  destruct messages_not_validation as (_ & A & B & C & _).
  destruct o as [pages|e]; unfold extractionMessage; [exact A|].
  destruct (eqb (exn_name e) (lit "PasswordException")); assumption.
Qed.

Lemma not_validation (m : jsstring) :
  m <> msgValidation -> Some m <> Some msgValidation.
Proof. intros H E. inversion E. contradiction. Qed.

Lemma step_sessionInv (JSON_parse : jsstring -> option json)
    (s s' : Sys) (ev : Event) :
  sessionInv s -> step JSON_parse s ev = Some s' -> sessionInv s'.
Proof.
  destruct messages_not_validation as (M1 & _ & _ & _ & M5 & M6).
  intros I E. destruct ev as [title|text|[f|]|o| |o]; unfold step in E.
  - destruct (existsb _ _); [|discriminate]. inversion E; subst. exact I.
  - destruct (eqb _ _); [|discriminate]. inversion E; subst. exact I.
  - destruct I as (B & P & T & V).
    destruct (eqb (file_type f) pdfType) eqn:Ty.
    + apply eqb_eq in Ty. rewrite (handleFileChange_pdf f _ Ty) in E.
      inversion E; subst; clear E.
      split; [|split; [|split]]; simpl.
      * unfold busyInv in *; simpl.
        destruct (analysesInFlight s) as [|[|n]];
          [exact B | split; [exact (proj1 B) | reflexivity] | exact B].
      * discriminate.
      * now left.
      * discriminate.
    + apply eqb_neq in Ty. rewrite (handleFileChange_non_pdf f _ Ty) in E.
      inversion E; subst; clear E.
      split; [|split; [|split]]; simpl.
      * exact B.
      * exact P.
      * now left.
      * now apply not_validation.
  - inversion E; subst. exact I.
  - destruct (parsesInFlight s) as [|n] eqn:N; [discriminate|].
    inversion E; subst; clear E.
    destruct I as (B & _ & T & V).
    assert (R : exists m : option jsstring, exists t : jsstring,
              fst (handleFileChange_resume o (ui s))
              = {| selectedJob := selectedJob (ui s);
                   customJobTitle := customJobTitle (ui s);
                   resumeText := t;
                   resumeFileName :=
                     resumeFileName
                       (fst (handleFileChange_resume o (ui s)));
                   rankingResult := rankingResult (ui s);
                   isLoading := isLoading (ui s);
                   isParsing := false; error := m |} /\
              m <> Some msgValidation /\
              (t = [] \/ 50 <= length (trim t))).
    { destruct o as [pages|e].
      - destruct (Z.ltb_spec (length (trim (extractText pages))) 50)
          as [L|L].
        + rewrite (handleFileChange_resume_short pages _ L).
          exists (Some msgNoReadableText), []. simpl.
          split; [reflexivity|]. split; [|now left].
          apply not_validation.
          exact (extractionMessage_not_validation (PdfRead pages)).
        + rewrite (handleFileChange_resume_long pages _ L).
          exists (error (ui s)), (extractText pages). simpl.
          split; [reflexivity|]. split; [exact V | now right].
      - rewrite handleFileChange_resume_rejected.
        exists (Some (extractionMessage (PdfRejected e))), []. simpl.
        split; [reflexivity|]. split; [|now left].
        apply not_validation.
        exact (extractionMessage_not_validation (PdfRejected e)). }
    destruct R as (m & t & R & Vm & Tt).
    split; [|split; [|split]]; simpl; rewrite R; simpl.
    + exact B.
    + reflexivity.
    + exact Tt.
    + exact Vm.
  - destruct (disabled (ui s)) eqn:D; [inversion E; subst; exact I|].
    destruct (enabled_started (ui s) D) as (L & _ & R). rewrite R in E.
    inversion E; subst; clear E R.
    destruct I as (B & P & T & V).
    unfold busyInv in B.
    destruct (analysesInFlight s) as [|[|n]] eqn:A;
      [|destruct B; congruence | contradiction].
    split; [|split; [|split]]; simpl.
    + unfold busyInv; simpl. now split.
    + exact P.
    + exact T.
    + discriminate.
  - destruct (analysesInFlight s) as [|n] eqn:N; [discriminate|].
    inversion E; subst; clear E.
    destruct I as (B & P & T & V).
    unfold busyInv in B. rewrite N in B.
    destruct n as [|n]; [|contradiction].
    pose proof (handleRankResume_resume_frame JSON_parse o (ui s))
      as (_ & F1 & _ & F3 & F4).
    cbv zeta in F1, F3, F4.
    split; [|split; [|split]]; simpl.
    + unfold busyInv; simpl. exact F4.
    + now rewrite F3.
    + now rewrite F1.
    + destruct o as [[raw|]|e].
      * rewrite handleRankResume_resume_text.
        destruct (JSON_parse _); simpl; [exact V|].
        now apply not_validation.
      * rewrite handleRankResume_resume_failed by auto. simpl.
        now apply not_validation.
      * rewrite handleRankResume_resume_failed by eauto. simpl.
        now apply not_validation.
Qed.

Lemma initial_sessionInv : sessionInv initialSys.
Proof.
  split; [|split; [|split]]; simpl.
  - reflexivity.
  - reflexivity.
  - now left.
  - discriminate.
Qed.

Lemma run_sessionInv (JSON_parse : jsstring -> option json)
    (allow : Sys -> Event -> bool) (evs : list Event) (s s' : Sys) :
  sessionInv s -> run JSON_parse allow evs s = Some s' -> sessionInv s'.
Proof.
  revert s. induction evs as [|ev evs IH]; intros s I; simpl.
  - intros E. inversion E; subst. exact I.
  - destruct (allow s ev); [|discriminate].
    destruct (step JSON_parse s ev) as [s1|] eqn:S1; [|discriminate].
    apply IH. exact (step_sessionInv JSON_parse s s1 ev I S1).
Qed.

(** X3: along every run from the empty page, whatever the interleaving
    of events, the stored resume text is either empty or has at least 50
    code units once trimmed; so every request the handler issues carries
    the stored text, and that text has at least 50 trimmed code units. *)
Theorem X3_request_text_is_readable (JSON_parse : jsstring -> option json)
    (evs : list Event) (s : Sys) :
  run JSON_parse anyEvent evs initialSys = Some s ->
  (resumeText (ui s) = [] \/ 50 <= length (trim (resumeText (ui s)))) /\
  (forall st' req,
     handleRankResume (ui s) = (st', Normal req) ->
     req_resumeText req = resumeText (ui s) /\
     50 <= length (trim (req_resumeText req))).
Proof.
  intros E.
  pose proof (run_sessionInv JSON_parse anyEvent evs initialSys s
                initial_sessionInv E) as (_ & _ & T & _).
  split; [exact T|]. intros st' req H.
  apply handleRankResume_request in H. destruct H as (_ & R & _ & N).
  split; [exact R|]. rewrite R. destruct T as [T|T]; [contradiction|exact T].
Qed.

Lemma X3_request_text_is_readable_witness :
  50 <= length (trim (resumeText readyState)).
Proof.
  destruct (X3_request_text_is_readable JSONText.parse
              [ SelectJob (lit "Frontend Developer");
                SelectFile (Some cvPdf);
                PdfSettled (PdfRead (letters 200)) ]
              (settled readyState) eq_refl) as ([T|T] & _).
  - discriminate T.
  - exact T.
Defined.

(** X7: along every run from the empty page the validation message is
    never the stored message: the button is disabled in every state in
    which the handler would store it. *)
Theorem X7_validation_message_never_stored
    (JSON_parse : jsstring -> option json) (evs : list Event) (s : Sys) :
  run JSON_parse anyEvent evs initialSys = Some s ->
  error (ui s) <> Some msgValidation /\
  (jobToRank (ui s) = [] \/ resumeText (ui s) = [] ->
   step JSON_parse s ClickRank = Some s).
Proof.
  intros E.
  pose proof (run_sessionInv JSON_parse anyEvent evs initialSys s
                initial_sessionInv E) as (_ & _ & _ & V).
  split; [exact V|]. intros H.
  assert (D : disabled (ui s) = true).
  { rewrite disabled_spec.
    destruct H as [H|H]; apply falsy_true in H; rewrite H;
      now rewrite ?orb_true_r. }
  unfold step. now rewrite D.
Qed.

Lemma X7_validation_message_never_stored_witness :
  error (ui initialSys) <> Some msgValidation /\
  step JSONText.parse initialSys ClickRank = Some initialSys.
Proof.
  destruct (X7_validation_message_never_stored JSONText.parse []
              initialSys eq_refl) as (V & C).
  split; [exact V|]. apply C. now left.
Defined.

(** X8: along every run from the empty page, whatever the interleaving,
    at most one analysis is in flight; the loading flag is up exactly
    while one is; and meanwhile the result cell is empty and a click on
    the button changes nothing. *)
Theorem X8_one_analysis_at_a_time (JSON_parse : jsstring -> option json)
    (evs : list Event) (s : Sys) :
  run JSON_parse anyEvent evs initialSys = Some s ->
  (analysesInFlight s <= 1)%nat /\
  (isLoading (ui s) = true <-> analysesInFlight s = 1%nat) /\
  (isLoading (ui s) = true ->
   rankingResult (ui s) = None /\
   step JSON_parse s ClickRank = Some s).
Proof.
  intros E.
  pose proof (run_sessionInv JSON_parse anyEvent evs initialSys s
                initial_sessionInv E) as (B & _).
  unfold busyInv in B.
  assert (C : isLoading (ui s) = true ->
              step JSON_parse s ClickRank = Some s).
  { intros L. unfold step, disabled. now rewrite L. }
  destruct (analysesInFlight s) as [|[|n]]; [| |contradiction].
  - split; [lia|]. split; [split; congruence|]. congruence.
  - destruct B as [L R]. split; [lia|]. split; [tauto|]. auto.
Qed.

Lemma X8_one_analysis_at_a_time_witness :
  isLoading analyzingState = true /\ rankingResult analyzingState = None.
Proof.
  destruct (X8_one_analysis_at_a_time JSONText.parse toAnalyzing
              {| ui := analyzingState; parsesInFlight := 0;
                 analysesInFlight := 1 |} eq_refl) as (_ & L & R).
  assert (H : isLoading analyzingState = true) by (apply L; reflexivity).
  split; [exact H|]. exact (proj1 (R H)).
Defined.

(** X9: along every run from the empty page, whatever the interleaving,
    the parsing flag is down whenever no parse is in flight; and when
    neither a parse nor an analysis is in flight, the button is enabled
    exactly when a resume text is stored and the effective job title is
    not empty. *)
Theorem X9_idle_page_is_not_busy (JSON_parse : jsstring -> option json)
    (evs : list Event) (s : Sys) :
  run JSON_parse anyEvent evs initialSys = Some s ->
  (parsesInFlight s = 0%nat -> isParsing (ui s) = false) /\
  (parsesInFlight s = 0%nat -> analysesInFlight s = 0%nat ->
   (disabled (ui s) = false <->
    resumeText (ui s) <> [] /\ jobToRank (ui s) <> [])).
Proof.
  intros E.
  pose proof (run_sessionInv JSON_parse anyEvent evs initialSys s
                initial_sessionInv E) as (B & P & _).
  split; [exact P|]. intros N A.
  unfold busyInv in B. rewrite A in B.
  rewrite disabled_spec, B, (P N). simpl.
  rewrite orb_false_iff, !falsy_false. tauto.
Qed.

Lemma X9_idle_page_is_not_busy_witness :
  isParsing resultState = false /\ disabled resultState = false.
Proof.
  destruct (X9_idle_page_is_not_busy JSONText.parse toResult
              (settled resultState) eq_refl) as (P & D).
  split; [exact (P eq_refl)|].
  apply (D eq_refl eq_refl). split; vm_compute; discriminate.
Defined.

(** X10: along every run from the empty page, whatever the interleaving
    and whatever the truthiness of parsed values, exactly one of the three
    conditions that guard the loading indicator, the placeholder and the
    result display holds; while an analysis is in flight it is the one of
    the loading indicator. *)
Theorem X10_one_results_guard (JSON_parse : jsstring -> option json)
    (ToBoolean : json -> bool) (evs : list Event) (s : Sys) :
  run JSON_parse anyEvent evs initialSys = Some s ->
  ((loadingGuard (ui s) = true /\
    placeholderGuard ToBoolean (ui s) = false /\
    resultsGuard ToBoolean (ui s) = false) \/
   (loadingGuard (ui s) = false /\
    placeholderGuard ToBoolean (ui s) = true /\
    resultsGuard ToBoolean (ui s) = false) \/
   (loadingGuard (ui s) = false /\
    placeholderGuard ToBoolean (ui s) = false /\
    resultsGuard ToBoolean (ui s) = true)) /\
  (analysesInFlight s <> 0%nat -> loadingGuard (ui s) = true).
Proof.
  intros E.
  pose proof (run_sessionInv JSON_parse anyEvent evs initialSys s
                initial_sessionInv E) as (B & _).
  unfold busyInv in B.
  unfold loadingGuard, placeholderGuard, resultsGuard.
  destruct (analysesInFlight s) as [|[|n]]; [| |contradiction].
  - rewrite B. split; [|congruence]. right.
    destruct (resultTruthy ToBoolean (rankingResult (ui s))); simpl; auto.
  - destruct B as [L R]. rewrite L, R. simpl. auto.
Qed.

Lemma X10_one_results_guard_witness :
  loadingGuard analyzingState = true /\
  placeholderGuard (fun _ => true) analyzingState = false.
Proof.
  destruct (X10_one_results_guard JSONText.parse (fun _ => true)
              toAnalyzing
              {| ui := analyzingState; parsesInFlight := 0;
                 analysesInFlight := 1 |} eq_refl)
    as ([(L & P & _) | [(L & _) | (L & _)]] & _).
  - split; [exact L | exact P].
  - discriminate L.
  - discriminate L.
Defined.

(** X11: along every run in which files are chosen one parse at a time
    and have a name, the text of the upload label and the condition of
    the "Selected:" line follow the state of the resume.  During the
    parse the label text is "Parsing PDF...", the line has the name of
    the file and the button's [disabled] is true; with a resume stored
    the label text is "Change PDF" and the line has the name; with none
    the label text is "Choose PDF File", the line is absent and
    [disabled] is true. *)
Theorem X11_upload_label_text (JSON_parse : jsstring -> option json)
    (evs : list Event) (s : Sys) :
  run JSON_parse oneParseAtATime evs initialSys = Some s ->
  (parsesInFlight s <> 0%nat ->
   uploadLabelText (ui s) = lit "Parsing PDF..." /\
   selectedFileLine (ui s) = Some (resumeFileName (ui s)) /\
   disabled (ui s) = true) /\
  (parsesInFlight s = 0%nat -> resumeText (ui s) <> [] ->
   uploadLabelText (ui s) = lit "Change PDF" /\
   selectedFileLine (ui s) = Some (resumeFileName (ui s))) /\
  (parsesInFlight s = 0%nat -> resumeText (ui s) = [] ->
   uploadLabelText (ui s) = lit "Choose PDF File" /\
   selectedFileLine (ui s) = None /\
   disabled (ui s) = true).
Proof.
  intros E.
  assert (I0 : resumeInv initialSys) by (split; reflexivity).
  pose proof (run_resumeInv JSON_parse evs initialSys s I0 E) as I.
  unfold resumeInv in I.
  unfold uploadLabelText, selectedFileLine, disabled.
  destruct (parsesInFlight s) as [|[|n]]; [| |contradiction].
  - destruct I as [V P]. apply validPair_cases in V. rewrite P.
    split; [congruence|]. split.
    + intros _ T. destruct V as [[_ V]|[V _]]; [contradiction|].
      apply falsy_false in V. rewrite V. simpl. auto.
    + intros _ T. destruct V as [[V _]|[_ V]]; [|contradiction].
      rewrite V, T. simpl. rewrite orb_true_r. auto.
  - destruct I as (T & F & P). rewrite P.
    apply falsy_false in F. rewrite F. simpl.
    split; [|split; congruence]. intros _.
    rewrite orb_true_r. auto.
Qed.

Lemma X11_upload_label_text_witness :
  uploadLabelText readyState = lit "Change PDF".
Proof.
  apply (proj1 (proj2 (X11_upload_label_text JSONText.parse
                         [ SelectJob (lit "Frontend Developer");
                           SelectFile (Some cvPdf);
                           PdfSettled (PdfRead (letters 200)) ]
                         (settled readyState) eq_refl)));
    [reflexivity | vm_compute; discriminate].
Defined.

(** Why files are taken one parse at a time there: with a second PDF
    chosen during the parse of a first, the settlement of the first
    lowers the flag, and the label text is no longer "Parsing PDF..."
    although the second parse is still in flight. *)
Lemma overlapping_parse_hides_label :
  exists s,
    run JSONText.parse anyEvent
        [ SelectFile (Some cvPdf); SelectFile (Some cvPdf);
          PdfSettled (PdfRead (letters 200)) ] initialSys = Some s /\
    parsesInFlight s = 1%nat /\
    uploadLabelText (ui s) = lit "Change PDF".
Proof.
  eexists. split; [vm_compute; reflexivity|]. split; reflexivity.
Qed.

(* ================================================================== *)
(** ** The job title along a session *)

(** No handler writes the selected job. *)
Lemma handlers_keep_selectedJob (JSON_parse : jsstring -> option json)
    (st : State) :
  (forall file,
     selectedJob (fst (handleFileChange file st)) = selectedJob st) /\
  (forall o,
     selectedJob (fst (handleFileChange_resume o st)) = selectedJob st) /\
  selectedJob (fst (handleRankResume st)) = selectedJob st /\
  (forall o,
     selectedJob (fst (handleRankResume_resume JSON_parse o st))
     = selectedJob st).
Proof.
  split; [|split; [|split]].
  - intros [f|]; [|reflexivity].
    destruct (eqb (file_type f) pdfType) eqn:T.
    + apply eqb_eq in T. now rewrite (handleFileChange_pdf f st T).
    + apply eqb_neq in T. now rewrite (handleFileChange_non_pdf f st T).
  - intros [pages|e].
    + destruct (Z.ltb_spec (length (trim (extractText pages))) 50) as [L|L].
      * now rewrite (handleFileChange_resume_short pages st L).
      * now rewrite (handleFileChange_resume_long pages st L).
    + now rewrite handleFileChange_resume_rejected.
  - unfold_handler.
    now destruct (falsy (jobToRank st) || falsy (resumeText st)).
  - intros [[raw|]|e].
    + rewrite handleRankResume_resume_text. now destruct (JSON_parse _).
    + now rewrite handleRankResume_resume_failed by auto.
    + now rewrite handleRankResume_resume_failed by eauto.
Qed.

Lemma step_selectedJob (JSON_parse : jsstring -> option json)
    (s s' : Sys) (ev : Event) :
  selectedJob (ui s) = [] \/ In (selectedJob (ui s)) jobTitles ->
  step JSON_parse s ev = Some s' ->
  selectedJob (ui s') = [] \/ In (selectedJob (ui s')) jobTitles.
Proof.
  destruct (handlers_keep_selectedJob JSON_parse (ui s))
    as (K1 & K2 & K3 & K4).
  intros I E. destruct ev as [title|text|file|o| |o]; unfold step in E.
  - destruct (existsb (eqb title) jobTitles) eqn:X; [|discriminate].
    inversion E; subst; simpl. right.
    apply existsb_exists in X. destruct X as (t & Hin & Heq).
    apply eqb_eq in Heq. now subst t.
  - destruct (eqb _ _); [|discriminate]. inversion E; subst. exact I.
  - specialize (K1 file).
    destruct (handleFileChange file (ui s)) as [st' [f| |e]];
      inversion E; subst; simpl in *; now rewrite K1.
  - destruct (parsesInFlight s); [discriminate|].
    inversion E; subst; simpl. now rewrite K2.
  - destruct (disabled (ui s)); [inversion E; subst; exact I|].
    destruct (handleRankResume (ui s)) as [st' [req| |e]];
      inversion E; subst; simpl in *; now rewrite K3.
  - destruct (analysesInFlight s); [discriminate|].
    inversion E; subst; simpl. now rewrite K4.
Qed.

Lemma run_selectedJob (JSON_parse : jsstring -> option json)
    (evs : list Event) (s s' : Sys) :
  selectedJob (ui s) = [] \/ In (selectedJob (ui s)) jobTitles ->
  run JSON_parse anyEvent evs s = Some s' ->
  selectedJob (ui s') = [] \/ In (selectedJob (ui s')) jobTitles.
Proof.
  revert s. induction evs as [|ev evs IH]; intros s I; simpl.
  - intros E. inversion E; subst. exact I.
  - destruct (step JSON_parse s ev) as [s1|] eqn:S1; [|discriminate].
    apply IH. exact (step_selectedJob JSON_parse s s1 ev I S1).
Qed.

(** X15: along every run from the empty page the selected job is either
    not chosen yet or one of the ten options of the select; so the job
    title of every request the handler issues is either one of the nine
    predefined titles, or, with "Other" selected, the custom text. *)
Theorem X15_request_job_title (JSON_parse : jsstring -> option json)
    (evs : list Event) (s : Sys) :
  run JSON_parse anyEvent evs initialSys = Some s ->
  (selectedJob (ui s) = [] \/ In (selectedJob (ui s)) jobTitles) /\
  (forall st' req,
     handleRankResume (ui s) = (st', Normal req) ->
     (In (req_jobToRank req) jobTitles /\
      req_jobToRank req <> lit "Other" /\
      req_jobToRank req = selectedJob (ui s)) \/
     (selectedJob (ui s) = lit "Other" /\
      req_jobToRank req = customJobTitle (ui s) /\
      customJobTitle (ui s) <> [])).
Proof.
  intros E.
  assert (I : selectedJob (ui s) = [] \/ In (selectedJob (ui s)) jobTitles).
  { apply (run_selectedJob JSON_parse evs initialSys s); [now left|exact E]. }
  split; [exact I|]. intros st' req H.
  apply handleRankResume_request in H. destruct H as (J & _ & N & _).
  destruct (eqb (selectedJob (ui s)) (lit "Other")) eqn:O.
  - right. apply eqb_eq in O.
    rewrite (jobToRank_other _ O) in J, N. auto.
  - left. apply eqb_neq in O.
    rewrite (jobToRank_predefined _ O) in J, N. rewrite J.
    destruct I as [I|I]; [contradiction|]. auto.
Qed.

Lemma X15_request_job_title_witness :
  selectedJob readyState = [] \/ In (selectedJob readyState) jobTitles.
Proof.
  exact (proj1 (X15_request_job_title JSONText.parse
                  [ SelectJob (lit "Frontend Developer");
                    SelectFile (Some cvPdf);
                    PdfSettled (PdfRead (letters 200)) ]
                  (settled readyState) eq_refl)).
Defined.
